(** * CFO Helper: scenario engine, forecast projector and usage counter

    A shallow embedding of [main.py] (the FastAPI backend) and of
    [build_forecast_df] from [app.py] (the Streamlit dashboard), together
    with the properties of the specification that concern them.

    Conventions of the embedding:
    - Python [int] is [Z]; Python [float] is an IEEE 754 binary64 value,
      given by the Standard Library's [spec_float] with [prec = 53] and
      [emax = 1024] and its correctly rounded operations;
    - Python [dict] with string keys is [gmap string _];
    - a Python exception is the [Raise] outcome of a computation;
    - the process-wide [USAGE_STATS] dictionary and the two remote services
      (the metering service and the language model) live in a [World] that
      the request handlers thread through. *)

From stdpp Require Import gmap strings list fin_maps.
From Stdlib Require Import ZArith QArith Qround SpecFloat Ascii String Lia.

Set Warnings "-register-all".
Close Scope Q_scope.
Open Scope string_scope.
Open Scope Z_scope.

(* ===================================================================== *)
(** * Python runtime: exceptions and outcomes *)
(* ===================================================================== *)

(** The exceptions that the modelled code can meet.  [str_exn] is the
    text that [f"{e}"] produces for those that are raised inside the [try]
    block of [calculate_price]; no [HTTPException] is. *)
Inductive exn :=
  | OverflowError (msg : string)
  | ZeroDivisionError (msg : string)
  | ValueError (msg : string)
  | TypeError (msg : string)
  | KeyError (key : string)
  | JSONDecodeError (msg : string)
  | ModelError (msg : string)
  | HTTPException (status_code : Z) (detail : string).

Definition str_exn (e : exn) : string :=
  match e with
  | OverflowError msg | ZeroDivisionError msg | ValueError msg | TypeError msg
  | JSONDecodeError msg | ModelError msg => msg
  | KeyError key => ("'" ++ key ++ "'")%string
  | HTTPException _ detail => detail
  end.

Inductive outcome (A : Type) :=
  | Ok (a : A)
  | Raise (e : exn).
Arguments Ok {A} a.
Arguments Raise {A} e.

Definition obind {A B} (x : outcome A) (k : A -> outcome B) : outcome B :=
  match x with
  | Ok a => k a
  | Raise e => Raise e
  end.

Declare Scope py_scope.
Delimit Scope py_scope with py.
Notation "'let?' x ':=' e 'in' k" := (obind e (fun x => k))
  (at level 10, x name, e at level 100, k at level 200) : py_scope.

(** Truthiness of an optional string, as in [if GEMINI_API_KEY:] where the
    value comes from [os.getenv]: [None] and the empty string are false. *)
Definition truthy (v : option string) : bool :=
  match v with
  | None => false
  | Some EmptyString => false
  | Some (String _ _) => true
  end.

(* ===================================================================== *)
(** * Python floats: IEEE 754 binary64 *)
(* ===================================================================== *)

Module PyFloat.

Definition prec : Z := 53.
Definition emax : Z := 1024.

Definition float := spec_float.

(** The correctly rounded value of an integer (round to nearest, ties to
    even); an infinity when the integer is out of range. *)
Definition round_int (n : Z) : float := binary_normalize prec emax n 0 false.

Definition is_finite (x : float) : bool :=
  match x with
  | S754_zero _ | S754_finite _ _ _ => true
  | S754_infinity _ | S754_nan => false
  end.

(** [float(n)], also the implicit conversion of the [int] operand of a
    mixed [int]/[float] operation: [OverflowError] beyond the range. *)
Definition of_int (n : Z) : outcome float :=
  let x := round_int n in
  if is_finite x then Ok x
  else Raise (OverflowError "int too large to convert to float").

Definition add (x y : float) : float := SFadd prec emax x y.
Definition mul (x y : float) : float := SFmul prec emax x y.

(** [x / y]; Python raises on a zero divisor instead of returning an
    infinity or a NaN. *)
Definition truediv (x y : float) : outcome float :=
  match y with
  | S754_zero _ => Raise (ZeroDivisionError "float division by zero")
  | _ => Ok (SFdiv prec emax x y)
  end.

(** [int(x)]: truncation toward zero. *)
Definition to_int (x : float) : outcome Z :=
  match x with
  | S754_zero _ => Ok 0
  | S754_finite s m e =>
      Ok (cond_Zopp s
            (match e with
             | Zneg p => Z.shiftr (Zpos m) (Zpos p)
             | _ => Z.shiftl (Zpos m) e
             end))
  | S754_infinity _ =>
      Raise (OverflowError "cannot convert float infinity to integer")
  | S754_nan => Raise (ValueError "cannot convert float NaN to integer")
  end.

(** The float literals of [main.py]. *)
Definition lit_100 : float := round_int 100.   (* 100.0 *)
Definition lit_12 : float := round_int 12.     (* 12.0 *)

(** The rational number that a finite float stands for. *)
Definition to_Q (x : float) : Q :=
  match x with
  | S754_finite s m e => (inject_Z (cond_Zopp s (Zpos m)) * Qpower 2 e)%Q
  | _ => 0%Q
  end.

(** The binary64 representation of an integer below [2^53] in
    magnitude: the mantissa is shifted up to 53 bits, by [shift].  Such
    an integer is a float, so that no rounding takes place. *)
Definition shift (p : positive) : Z := prec - Zpos (digits2_pos p).

Definition canon (s : bool) (p : positive) : float :=
  S754_finite s (Z.to_pos (Zpos p * 2 ^ shift p)) (- shift p).

Definition exact (n : Z) : float :=
  match n with
  | Z0 => S754_zero false
  | Zpos p => canon false p
  | Zneg p => canon true p
  end.

Definition exact_record (m : Z) : shr_record :=
  {| shr_m := m; shr_r := false; shr_s := false |}.

End PyFloat.

(* ===================================================================== *)
(** * Data model of [main.py] *)
(* ===================================================================== *)

Record Metrics := {
  runway : Z;
  monthly_revenue : Z;
  monthly_cogs : Z;
  monthly_opex : Z
}.

Record SimulatePayload := {
  hires : Z;
  marketing_spend_increase : Z;
  price_increase_percentage : PyFloat.float;
  baseline_metrics : Metrics
}.

Record FlexpricePayload := {
  product_description : string
}.

(** The dictionary [simulated_metrics] built by [simulate_scenario]. *)
Record SimulatedMetrics := {
  sim_runway : Z;
  sim_monthly_burn : Z;
  sim_monthly_opex : Z;
  sim_monthly_profit : Z;
  sim_monthly_revenue : Z;
  sim_monthly_cogs : Z
}.

(** The body returned by [simulate_scenario]. *)
Record SimulateResponse := {
  simulated_metrics : SimulatedMetrics;
  usage_stats : gmap string Z
}.

(** JSON values, as [json.loads] returns them. *)
Inductive json :=
  | JNull
  | JBool (b : bool)
  | JInt (n : Z)
  | JFloat (f : PyFloat.float)
  | JString (s : string)
  | JArray (l : list json)
  | JStats (d : gmap string Z)      (* a dictionary of counters *)
  | JObject (o : list (string * json)).

(** The environment read at import time ([os.getenv]). *)
Record Config := {
  GEMINI_API_KEY : option string;
  FLEXPRICE_API_KEY : option string
}.

(** What the language model does with a prompt: [generate_content] and
    [response.text] either give a text or raise. *)
Inductive reply :=
  | ReplyText (text : string)
  | ReplyError (msg : string).

(** Interactions with the outside and with the counters, in the order in
    which they happen. *)
Inductive event :=
  | Incremented (key : string)
  | MeterPost (event_name customer_id : string)
  | UsageGet (customer_id : string)
  | ModelCall (prompt : string).

(** The state a request handler runs in.  [usage_replies] scripts the
    metering service: the head answers the next [GET /usage/<id>], [None]
    (or an exhausted script) being a [RequestException].  [model] is the
    language model, answering a prompt. *)
Record World := {
  USAGE_STATS : gmap string Z;
  usage_replies : list (option (gmap string Z));
  model : string -> reply;
  trace : list event
}.

Definition M (A : Type) : Type := World -> outcome A * World.

Definition ret {A} (a : A) : M A := fun w => (Ok a, w).
Definition throw {A} (e : exn) : M A := fun w => (Raise e, w).
Definition lift {A} (x : outcome A) : M A := fun w => (x, w).
Definition bind {A B} (m : M A) (k : A -> M B) : M B :=
  fun w =>
    match m w with
    | (Ok a, w') => k a w'
    | (Raise e, w') => (Raise e, w')
    end.

Notation "'let!' x ':=' e 'in' k" := (bind e (fun x => k))
  (at level 10, x name, e at level 100, k at level 200) : py_scope.

Open Scope py_scope.

Definition emit (ev : event) : M unit :=
  fun w =>
    (Ok tt, {| USAGE_STATS := USAGE_STATS w;
               usage_replies := usage_replies w;
               model := model w;
               trace := trace w ++ [ev] |}).

Definition set_usage_stats (d : gmap string Z) : M unit :=
  fun w =>
    (Ok tt, {| USAGE_STATS := d;
               usage_replies := usage_replies w;
               model := model w;
               trace := trace w |}).

Definition read_usage_stats : M (gmap string Z) :=
  fun w => (Ok (USAGE_STATS w), w).

(** [try: ... except Exception as e: ...] *)
Definition try_except {A} (body : M A) (handler : exn -> M A) : M A :=
  fun w =>
    match body w with
    | (Ok a, w') => (Ok a, w')
    | (Raise e, w') => handler e w'
    end.

(* ===================================================================== *)
(** * Python strings and JSON objects *)
(* ===================================================================== *)

(** Text is a string of code points below 256.  [str.isspace] on them:
    tab to carriage return, the four separators, the space, NEL and the
    no-break space. *)
Definition is_space (c : ascii) : bool :=
  let n := N_of_ascii c in
  ((9 <=? n)%N && (n <=? 13)%N) || ((28 <=? n)%N && (n <=? 32)%N)
  || (n =? 133)%N || (n =? 160)%N.

Fixpoint py_lstrip (s : string) : string :=
  match s with
  | EmptyString => EmptyString
  | String c s' => if is_space c then py_lstrip s' else s
  end.

Definition py_rstrip (s : string) : string :=
  String.rev (py_lstrip (String.rev s)).

(** [s.strip()] *)
Definition py_strip (s : string) : string := py_rstrip (py_lstrip s).

(** [s.replace(old, new)] for a non-empty [old]: the occurrences are
    found from the left and do not overlap.  [skip] counts the characters
    of an occurrence that are still to be dropped. *)
Fixpoint replace_from (old new : string) (skip : nat) (s : string) : string :=
  match s with
  | EmptyString => EmptyString
  | String c s' =>
      match skip with
      | S k => replace_from old new k s'
      | O =>
          if String.prefix old s
          then (new ++ replace_from old new (Nat.pred (String.length old)) s')%string
          else String c (replace_from old new O s')
      end
  end.

Definition py_replace (old new s : string) : string := replace_from old new O s.

Definition fence : string := "```".
Definition fence_json : string := "```json".

(** [d[key] = value] on a dictionary kept in insertion order. *)
Fixpoint dict_set (o : list (string * json)) (key : string) (value : json)
  : list (string * json) :=
  match o with
  | [] => [(key, value)]
  | (k, v) :: o' =>
      if String.eqb k key then (k, value) :: o'
      else (k, v) :: dict_set o' key value
  end.

(** [obj[key] = value] with a string key on any JSON value: only a
    dictionary accepts it. *)
Definition py_setitem (obj : json) (key : string) (value : json) : outcome json :=
  match obj with
  | JObject o => Ok (JObject (dict_set o key value))
  | JStats d =>
      Ok (JObject (dict_set (prod_map id JInt <$> map_to_list d) key value))
  | JArray _ =>
      Raise (TypeError "list indices must be integers or slices, not str")
  | JNull =>
      Raise (TypeError "'NoneType' object does not support item assignment")
  | JBool _ =>
      Raise (TypeError "'bool' object does not support item assignment")
  | JInt _ =>
      Raise (TypeError "'int' object does not support item assignment")
  | JFloat _ =>
      Raise (TypeError "'float' object does not support item assignment")
  | JString _ =>
      Raise (TypeError "'str' object does not support item assignment")
  end.

(** Whether [json.dumps(..., allow_nan=False)] accepts the value: no
    infinity and no NaN inside. *)
Fixpoint json_compliant (j : json) : bool :=
  match j with
  | JFloat f => PyFloat.is_finite f
  | JArray l => forallb json_compliant l
  | JObject o => forallb (fun kv => match kv with (_, v) => json_compliant v end) o
  | _ => true
  end.

(** [JSONResponse(content=j)]: the body is rendered on construction. *)
Definition JSONResponse (j : json) : outcome json :=
  if json_compliant j then Ok j
  else Raise (ValueError "Out of range float values are not JSON compliant").

(* ===================================================================== *)
(** * [main.py]: the usage counter *)
(* ===================================================================== *)

(** [USAGE_STATS] as the module creates it. *)
Definition initial_usage_stats : gmap string Z :=
  <["scenarios_simulated" := 0]>
    (<["reports_exported" := 0]>
       (<["ai_price_calculations" := 0]> ∅)).

Definition default_customer : string := "default-customer".

(** [USAGE_STATS[key] += 1]: [KeyError] when the key is missing. *)
Definition increment (key : string) : M unit :=
  let! stats := read_usage_stats in
  match stats !! key with
  | Some n =>
      let! _ := set_usage_stats (<[key := n + 1]> stats) in
      emit (Incremented key)
  | None => throw (KeyError key)
  end.

(** [requests.get(.../usage/<id>)] followed by [raise_for_status] and
    [json]: the next scripted answer of the metering service. *)
Definition usage_get (customer_id : string) : M (option (gmap string Z)) :=
  fun w =>
    let w' := {| USAGE_STATS := USAGE_STATS w;
                 usage_replies := tail (usage_replies w);
                 model := model w;
                 trace := trace w ++ [UsageGet customer_id] |} in
    match usage_replies w with
    | Some data :: _ => (Ok (Some data), w')
    | _ => (Ok None, w')
    end.

Section Handlers.

Variable cfg : Config.

Definition get_usage_stats (customer_id : string) : M (gmap string Z) :=
  if truthy (FLEXPRICE_API_KEY cfg) then
    let! r := usage_get customer_id in
    match r with
    | Some data =>
        let! stats := read_usage_stats in
        (* dict.update: the fetched entries win *)
        let! _ := set_usage_stats (data ∪ stats) in
        ret data
    | None => read_usage_stats
    end
  else read_usage_stats.

Definition log_flexprice_event (event_name customer_id : string)
  : M (gmap string Z) :=
  let! _ :=
    if String.eqb event_name "scenario_simulated" then
      increment "scenarios_simulated"
    else if String.eqb event_name "report_exported" then
      increment "reports_exported"
    else if String.eqb event_name "ai_price_calculation" then
      increment "ai_price_calculations"
    else ret tt in
  let! _ :=
    if truthy (FLEXPRICE_API_KEY cfg) then
      (* the answer of the POST is dropped and its failure is swallowed *)
      emit (MeterPost event_name customer_id)
    else ret tt in
  get_usage_stats customer_id.

(* ------------------------------------------------------------------- *)
(** ** [main.py]: the scenario engine *)
(* ------------------------------------------------------------------- *)

(** Line 95: [int(base.monthly_revenue * (1 + pct / 100.0))]. *)
Definition new_monthly_revenue (base : Metrics) (pct : PyFloat.float)
  : outcome Z :=
  let? q := PyFloat.truediv pct PyFloat.lit_100 in
  let? one := PyFloat.of_int 1 in
  let factor := PyFloat.add one q in
  let? rev := PyFloat.of_int (monthly_revenue base) in
  PyFloat.to_int (PyFloat.mul rev factor).

(** Line 96: [75000 / 12.0]. *)
Definition per_hire_monthly : outcome PyFloat.float :=
  let? c := PyFloat.of_int 75000 in
  PyFloat.truediv c PyFloat.lit_12.

(** Lines 97-98. *)
Definition new_monthly_opex (base : Metrics) (hires marketing : Z)
  : outcome Z :=
  let? per_hire := per_hire_monthly in
  let? h := PyFloat.of_int hires in
  let hiring_cost_monthly := PyFloat.mul h per_hire in
  let? opex := PyFloat.of_int (monthly_opex base) in
  let s := PyFloat.add opex hiring_cost_monthly in
  let? mk := PyFloat.of_int marketing in
  PyFloat.to_int (PyFloat.add s mk).

(** Lines 102-104. *)
Definition baseline_net_profit (base : Metrics) : Z :=
  monthly_revenue base - monthly_cogs base - monthly_opex base.

Definition starting_cash (base : Metrics) : Z :=
  let base_net_burn :=
    if baseline_net_profit base <? 0 then - baseline_net_profit base else 0 in
  if 0 <? base_net_burn then runway base * base_net_burn
  else monthly_revenue base * 12.

(** Lines 106-107. *)
Definition new_runway (base : Metrics) (new_net_profit : Z) : Z :=
  let net_cash_burn := if new_net_profit <? 0 then - new_net_profit else 0 in
  if 0 <? net_cash_burn then Z.max 0 (starting_cash base / net_cash_burn)
  else 48.

Definition simulate_scenario (payload : SimulatePayload) : M SimulateResponse :=
  let base := baseline_metrics payload in
  let! new_monthly_revenue :=
    lift (new_monthly_revenue base (price_increase_percentage payload)) in
  let! new_monthly_opex :=
    lift (new_monthly_opex base (hires payload)
            (marketing_spend_increase payload)) in
  let new_gross_profit := new_monthly_revenue - monthly_cogs base in
  let new_net_profit := new_gross_profit - new_monthly_opex in
  let new_runway := new_runway base new_net_profit in
  let! updated_usage_stats :=
    log_flexprice_event "scenario_simulated" default_customer in
  ret {| simulated_metrics :=
           {| sim_runway := new_runway;
              sim_monthly_burn := new_monthly_opex;
              sim_monthly_opex := new_monthly_opex;
              sim_monthly_profit := new_net_profit;
              sim_monthly_revenue := new_monthly_revenue;
              sim_monthly_cogs := monthly_cogs base |};
         usage_stats := updated_usage_stats |}.

Definition log_report_export : M (gmap string Z) :=
  log_flexprice_event "report_exported" default_customer.

(* ------------------------------------------------------------------- *)
(** ** [main.py]: the pricing assistant *)
(* ------------------------------------------------------------------- *)

(** [json.loads]: a JSON value, or the message of a [JSONDecodeError]. *)
Variable json_loads : string -> string + json.

Definition prompt_of (payload : FlexpricePayload) : string :=
  ("Respond ONLY with a valid JSON object with keys " ++
   String (ascii_of_nat 34) "optimal_price" ++
   String (ascii_of_nat 34) " (number) and " ++
   String (ascii_of_nat 34) "reasoning" ++
   String (ascii_of_nat 34) " (string). Product: " ++
   String (ascii_of_nat 34) (product_description payload) ++
   String (ascii_of_nat 34) "")%string.

(** [model.generate_content(prompt)] and [response.text]. *)
Definition generate_content (prompt : string) : M string :=
  let! _ := emit (ModelCall prompt) in
  fun w =>
    match model w prompt with
    | ReplyText text => (Ok text, w)
    | ReplyError msg => (Raise (ModelError msg), w)
    end.

(** Line 138. *)
Definition cleaned_response (text : string) : string :=
  py_strip (py_replace fence "" (py_replace fence_json "" (py_strip text))).

(** Lines 139-141: parse, attach the usage statistics, build the
    response. *)
Definition price_response (text : string) (updated_usage_stats : gmap string Z)
  : outcome json :=
  match json_loads (cleaned_response text) with
  | inl msg => Raise (JSONDecodeError msg)
  | inr result_json =>
      let? result_json :=
        py_setitem result_json "usage_stats" (JStats updated_usage_stats) in
      JSONResponse result_json
  end.

Definition calculate_price (payload : FlexpricePayload) : M json :=
  let! updated_usage_stats :=
    log_flexprice_event "ai_price_calculation" default_customer in
  if truthy (GEMINI_API_KEY cfg) then
    let prompt := prompt_of payload in
    try_except
      (let! text := generate_content prompt in
       lift (price_response text updated_usage_stats))
      (fun e =>
         throw (HTTPException 500
                  ("Error with Gemini API: " ++ str_exn e)%string))
  else
    lift (JSONResponse
            (JObject [("optimal_price", JInt 999);
                      ("reasoning", JString "GEMINI_API_KEY not configured.");
                      ("usage_stats", JStats updated_usage_stats)])).

End Handlers.

(* ===================================================================== *)
(** * [app.py]: the forecast projector *)
(* ===================================================================== *)

(** The two columns of the data frame built by [build_forecast_df]. *)
Record DataFrame := {
  Month : list Z;
  Cash_Balance : list Z
}.

(** The rows of a frame, as [(Month, Cash Balance)] pairs. *)
Definition rows (df : DataFrame) : list (Z * Z) :=
  zip (Month df) (Cash_Balance df).

(** [metrics[key]] *)
Definition getitem (metrics : gmap string Z) (key : string) : outcome Z :=
  match metrics !! key with
  | Some v => Ok v
  | None => Raise (KeyError key)
  end.

(** [range(start, stop)] *)
Definition py_range (start stop : Z) : list Z := seqZ start (stop - start).

Definition build_forecast_df (metrics : gmap string Z) : outcome DataFrame :=
  let? revenue := getitem metrics "monthly_revenue" in
  let? cogs := getitem metrics "monthly_cogs" in
  let? opex := getitem metrics "monthly_opex" in
  let net_profit := revenue - cogs - opex in
  let base_net_burn := if net_profit <? 0 then - net_profit else 0 in
  let? starting_cash :=
    if 0 <? base_net_burn then
      let? r := getitem metrics "runway" in Ok (r * base_net_burn)
    else
      let? rev := getitem metrics "monthly_revenue" in Ok (rev * 12) in
  let runway_duration := default 36 (metrics !! "runway") in
  let runway_duration := if runway_duration <=? 0 then 1 else runway_duration in
  let cash_balance :=
    (fun i => Z.max 0 (starting_cash + net_profit * i))
      <$> py_range 0 runway_duration in
  Ok {| Month := py_range 1 (runway_duration + 1);
        Cash_Balance := cash_balance |}.

(** The metrics dictionary that the backend sends for a [Metrics] value. *)
Definition metrics_dict (m : Metrics) : gmap string Z :=
  <["runway" := runway m]>
    (<["monthly_revenue" := monthly_revenue m]>
       (<["monthly_cogs" := monthly_cogs m]>
          (<["monthly_opex" := monthly_opex m]> ∅))).

(** The forecast of a [Metrics] value. *)
Definition project (m : Metrics) : outcome DataFrame :=
  build_forecast_df (metrics_dict m).

(* ===================================================================== *)
(** * The statements of the specification *)
(* ===================================================================== *)

(** The revenue and operating-expense formulas of the specification, read
    over the rational numbers: [floor(revenue * (1 + pct / 100))] and
    [floor(opex + hires * (75000 / 12) + marketing)]. *)
Definition spec_monthly_revenue (base : Metrics) (pct : Q) : Z :=
  Qfloor (inject_Z (monthly_revenue base) * (1 + pct / 100))%Q.

Definition spec_monthly_opex (base : Metrics) (hires marketing : Z) : Z :=
  Qfloor (inject_Z (monthly_opex base)
          + inject_Z hires * (75000 / 12) + inject_Z marketing)%Q.

(** Line 95 on floats, without the plumbing of exceptions: the product of
    the revenue, rounded to a float, with the float [1 + pct / 100.0]. *)
Definition float_revenue (base : Metrics) (pct : PyFloat.float) : PyFloat.float :=
  PyFloat.mul (PyFloat.round_int (monthly_revenue base))
    (PyFloat.add (PyFloat.round_int 1)
       (SFdiv PyFloat.prec PyFloat.emax pct PyFloat.lit_100)).

(** The metrics that [simulate_scenario] builds from the two amounts. *)
Definition metrics_of (base : Metrics) (revenue opex : Z) : SimulatedMetrics :=
  {| sim_runway := new_runway base (revenue - monthly_cogs base - opex);
     sim_monthly_burn := opex;
     sim_monthly_opex := opex;
     sim_monthly_profit := revenue - monthly_cogs base - opex;
     sim_monthly_revenue := revenue;
     sim_monthly_cogs := monthly_cogs base |}.

(** The contract of [simulate] as the specification states it, at one
    request: for non-negative inputs the handler answers, with the revenue
    and the operating expenses of the two formulas and with the profit
    that follows from them. *)
Definition simulate_as_specified (cfg : Config) (payload : SimulatePayload)
  (w : World) : Prop :=
  let base := baseline_metrics payload in
  let pct := PyFloat.to_Q (price_increase_percentage payload) in
  0 <= hires payload ->
  0 <= marketing_spend_increase payload ->
  (0 <= pct)%Q ->
  exists r w',
    simulate_scenario cfg payload w = (Ok r, w')
    /\ sim_monthly_revenue (simulated_metrics r) = spec_monthly_revenue base pct
    /\ sim_monthly_opex (simulated_metrics r)
       = spec_monthly_opex base (hires payload) (marketing_spend_increase payload)
    /\ sim_monthly_profit (simulated_metrics r)
       = sim_monthly_revenue (simulated_metrics r) - monthly_cogs base
         - sim_monthly_opex (simulated_metrics r).

(** The atomicity statement of the specification for a failing pricing
    request, at one request: whenever the handler fails with a server
    error, the counter of price calculations has advanced by 1. *)
Definition failure_counts_once (cfg : Config) (json_loads : string -> string + json)
  (payload : FlexpricePayload) (w : World) : Prop :=
  forall n detail w',
    USAGE_STATS w !! "ai_price_calculations" = Some n ->
    calculate_price cfg json_loads payload w
    = (Raise (HTTPException 500 detail), w') ->
    USAGE_STATS w' !! "ai_price_calculations" = Some (n + 1).

(** What the pricing handler answers once the event is logged and the
    model has replied. *)
Definition price_outcome (json_loads : string -> string + json)
  (r : reply) (stats : gmap string Z) : outcome json :=
  match
    match r with
    | ReplyText text => price_response json_loads text stats
    | ReplyError msg => Raise (ModelError msg)
    end
  with
  | Ok j => Ok j
  | Raise e => Raise (HTTPException 500 ("Error with Gemini API: " ++ str_exn e)%string)
  end.

(** The forecast horizon as the specification words it: the runway if it
    is present and positive, else 36, and 1 if that is not positive. *)
Definition spec_horizon (runway : option Z) : Z :=
  let h := match runway with
           | Some r => if 0 <? r then r else 36
           | None => 36
           end in
  if h <=? 0 then 1 else h.

(** The forecast horizon of [build_forecast_df]: the runway if it is
    present, else 36, and 1 if that is not positive. *)
Definition horizon (runway : option Z) : Z :=
  match runway with
  | Some r => if r <=? 0 then 1 else r
  | None => 36
  end.

(** The three kinds of events that are counted. *)
Inductive kind := scenario_simulated | report_exported | ai_price_calculation.

Definition event_name_of (k : kind) : string :=
  match k with
  | scenario_simulated => "scenario_simulated"
  | report_exported => "report_exported"
  | ai_price_calculation => "ai_price_calculation"
  end.

Definition counter_of (k : kind) : string :=
  match k with
  | scenario_simulated => "scenarios_simulated"
  | report_exported => "reports_exported"
  | ai_price_calculation => "ai_price_calculations"
  end.

(** [N] calls of [log_flexprice_event], one after the other. *)
Fixpoint log_many (cfg : Config) (event_name customer_id : string) (N : nat)
  : M unit :=
  match N with
  | O => ret tt
  | S N' =>
      let! _ := log_flexprice_event cfg event_name customer_id in
      log_many cfg event_name customer_id N'
  end.

(** The three counters are in [USAGE_STATS]: so the module starts, and no
    handler removes a key. *)
Definition counters_present (stats : gmap string Z) : Prop :=
  forall k : kind, is_Some (stats !! counter_of k).

(** A series that never increases, and one that stays at 0 once it has
    reached 0. *)
Definition non_increasing (l : list Z) : Prop :=
  forall (i j : nat) x y,
    (i <= j)%nat -> l !! i = Some x -> l !! j = Some y -> y <= x.

Definition stays_zero (l : list Z) : Prop :=
  forall (i j : nat) y,
    (i <= j)%nat -> l !! i = Some 0 -> l !! j = Some y -> y = 0.

(** The horizon of the specification, at one [Metrics] value: the
    forecast has as many rows as [spec_horizon] says. *)
Definition horizon_as_specified (m : Metrics) : Prop :=
  exists df,
    project m = Ok df
    /\ Z.of_nat (List.length (rows df)) = spec_horizon (Some (runway m)).

(** The cash balance of month [i + 1]. *)
Definition cash_at (starting_cash net_profit i : Z) : Z :=
  Z.max 0 (starting_cash + net_profit * i).

(** A world after an update of its statistics and of its trace. *)
Definition updated (w : World) (stats : gmap string Z) (evs : list event)
  (replies : list (option (gmap string Z))) : World :=
  {| USAGE_STATS := stats; usage_replies := replies;
     model := model w; trace := trace w ++ evs |}.

(** What a configured metering service answers to the next request. *)
Definition fetched (cfg : Config) (w : World) : option (gmap string Z) :=
  if truthy (FLEXPRICE_API_KEY cfg) then
    match usage_replies w with
    | Some data :: _ => Some data
    | _ => None
    end
  else None.

(* ===================================================================== *)
(** * Sample inputs *)
(* ===================================================================== *)

(** The baseline of [/initial-data]. *)
Definition initial_baseline : Metrics :=
  {| runway := 18; monthly_revenue := 220000;
     monthly_cogs := 40000; monthly_opex := 150000 |}.

Definition sample_payload (hires marketing pct : Z) : SimulatePayload :=
  {| hires := hires; marketing_spend_increase := marketing;
     price_increase_percentage := PyFloat.round_int pct;
     baseline_metrics := initial_baseline |}.

(** A process that has just started, with no key configured, a metering
    service that does not answer and a model that answers with prose. *)
Definition local_cfg : Config :=
  {| GEMINI_API_KEY := None; FLEXPRICE_API_KEY := None |}.

Definition fresh_world : World :=
  {| USAGE_STATS := initial_usage_stats; usage_replies := [];
     model := fun _ => ReplyText "The price should be 49."; trace := [] |}.

(** A parser that knows the empty object only, enough to run the pricing
    handler on a text that is not JSON. *)
Definition sample_json_loads (s : string) : string + json :=
  if String.eqb s "{}" then inr (JObject [])
  else inl "Expecting value: line 1 column 1 (char 0)".

(** The baseline of [/initial-data] once the cash is used up. *)
Definition exhausted_baseline : Metrics :=
  {| runway := 0; monthly_revenue := 220000;
     monthly_cogs := 40000; monthly_opex := 150000 |}.

(** A company that loses 80 a month, with 5 months left. *)
Definition losing_baseline : Metrics :=
  {| runway := 5; monthly_revenue := 10;
     monthly_cogs := 40; monthly_opex := 50 |}.

(** The language model alone is configured. *)
Definition model_cfg : Config :=
  {| GEMINI_API_KEY := Some "g-key"; FLEXPRICE_API_KEY := None |}.

Definition sample_product : FlexpricePayload :=
  {| product_description := "A subscription-based SaaS platform" |}.

(** Both services configured, in a process that has just restarted: the
    metering service has counted 58 price calculations so far, this
    request included. *)
Definition metered_cfg : Config :=
  {| GEMINI_API_KEY := Some "g-key"; FLEXPRICE_API_KEY := Some "f-key" |}.

Definition metered_world : World :=
  {| USAGE_STATS := initial_usage_stats;
     usage_replies := [Some {[ "ai_price_calculations" := 58 ]}];
     model := fun _ => ReplyText "The price should be 49."; trace := [] |}.

(* ===================================================================== *)
(** * [main.py]: the other endpoints and the routes *)
(* ===================================================================== *)

(** The body returned by [get_initial_data]. *)
Record InitialData := {
  init_baseline_metrics : Metrics;
  init_usage_stats : gmap string Z
}.

(** [GET /initial-data] *)
Definition get_initial_data (cfg : Config) : M InitialData :=
  let! usage_stats := get_usage_stats cfg default_customer in
  ret {| init_baseline_metrics :=
           {| runway := 18; monthly_revenue := 220000;
              monthly_cogs := 40000; monthly_opex := 150000 |};
         init_usage_stats := usage_stats |}.

(** [POST /data-refresh] *)
Definition refresh_data : M Metrics :=
  ret {| runway := 15; monthly_revenue := 210000;
         monthly_cogs := 45000; monthly_opex := 160000 |}.

(** The five routes of the application and their bodies. *)
Inductive request :=
  | GetInitialData
  | PostSimulate (payload : SimulatePayload)
  | PostLogReportExport
  | PostDataRefresh
  | PostFlexpriceCalculate (payload : FlexpricePayload).

Inductive response :=
  | InitialDataBody (body : InitialData)
  | SimulateBody (body : SimulateResponse)
  | StatsBody (body : gmap string Z)
  | RefreshBody (body : Metrics)
  | PriceBody (body : json).

Definition fmapM {A B} (f : A -> B) (m : M A) : M B :=
  let! a := m in ret (f a).

(** The routing of a request to its handler. *)
Definition handle (cfg : Config) (json_loads : string -> string + json)
  (req : request) : M response :=
  match req with
  | GetInitialData => fmapM InitialDataBody (get_initial_data cfg)
  | PostSimulate payload => fmapM SimulateBody (simulate_scenario cfg payload)
  | PostLogReportExport => fmapM StatsBody (log_report_export cfg)
  | PostDataRefresh => fmapM RefreshBody refresh_data
  | PostFlexpriceCalculate payload =>
      fmapM PriceBody (calculate_price cfg json_loads payload)
  end.

(** The requests of a session, one after the other: a handler that raises
    answers with an error, and the process goes on with the state that the
    handler left. *)
Fixpoint serve (cfg : Config) (json_loads : string -> string + json)
  (reqs : list request) (w : World) : list (outcome response) * World :=
  match reqs with
  | [] => ([], w)
  | req :: reqs' =>
      let (out, w1) := handle cfg json_loads req w in
      let (outs, w2) := serve cfg json_loads reqs' w1 in
      (out :: outs, w2)
  end.

(** Whether a request, with the answer it got, counts for a kind of
    event: a simulation counts when it succeeded, an export and a price
    calculation always. *)
Definition counts_for (k : kind) (req : request) (out : outcome response)
  : bool :=
  match k, req, out with
  | scenario_simulated, PostSimulate _, Ok _ => true
  | report_exported, PostLogReportExport, _ => true
  | ai_price_calculation, PostFlexpriceCalculate _, _ => true
  | _, _, _ => false
  end.

Fixpoint count_for (k : kind) (reqs : list request)
  (outs : list (outcome response)) : Z :=
  match reqs, outs with
  | req :: reqs', out :: outs' =>
      (if counts_for k req out then 1 else 0) + count_for k reqs' outs'
  | _, _ => 0
  end.

Definition is_metering_event (ev : event) : bool :=
  match ev with
  | MeterPost _ _ | UsageGet _ => true
  | _ => false
  end.

Definition is_model_event (ev : event) : bool :=
  match ev with
  | ModelCall _ => true
  | _ => false
  end.


(** Whether [needle] occurs in [s]. *)
Fixpoint occurs (needle s : string) : bool :=
  String.prefix needle s
  || match s with
     | EmptyString => false
     | String _ s' => occurs needle s'
     end.

(** The last character of a text. *)
Fixpoint last_char (s : string) : option ascii :=
  match s with
  | EmptyString => None
  | String c EmptyString => Some c
  | String _ s' => last_char s'
  end.

Definition first_char (s : string) : option ascii :=
  match s with
  | EmptyString => None
  | String c _ => Some c
  end.

(* ===================================================================== *)
(** * [app.py]: the forecast of a simulation *)
(* ===================================================================== *)

(** The dictionary [simulated_metrics] as the dashboard receives it. *)
Definition simulated_dict (m : SimulatedMetrics) : gmap string Z :=
  <["runway" := sim_runway m]>
    (<["monthly_burn" := sim_monthly_burn m]>
       (<["monthly_opex" := sim_monthly_opex m]>
          (<["monthly_profit" := sim_monthly_profit m]>
             (<["monthly_revenue" := sim_monthly_revenue m]>
                (<["monthly_cogs" := sim_monthly_cogs m]> ∅))))).

(** Lines 100-102 of [app.py]: the baseline, updated with the simulated
    metrics, is what the simulated forecast is built from. *)
Definition simulated_forecast (baseline_metrics : gmap string Z)
  (result : SimulateResponse) : outcome DataFrame :=
  let full_sim_metrics :=
    simulated_dict (simulated_metrics result) ∪ baseline_metrics in
  build_forecast_df full_sim_metrics.

(** The metrics that the simulated forecast reads. *)
Definition forecast_metrics (m : SimulatedMetrics) : Metrics :=
  {| runway := sim_runway m;
     monthly_revenue := sim_monthly_revenue m;
     monthly_cogs := sim_monthly_cogs m;
     monthly_opex := sim_monthly_opex m |}.

Definition non_decreasing (l : list Z) : Prop :=
  forall (i j : nat) x y,
    (i <= j)%nat -> l !! i = Some x -> l !! j = Some y -> x <= y.

(** An event name that is none of the three names. *)
Definition uncounted (event_name : string) : Prop :=
  event_name <> "scenario_simulated"
  /\ event_name <> "report_exported"
  /\ event_name <> "ai_price_calculation".

(** The events of a trace keep to the services that are configured. *)
Definition quiet (cfg : Config) (evs : list event) : Prop :=
  (truthy (FLEXPRICE_API_KEY cfg) = false ->
   Forall (fun ev => is_metering_event ev = false) evs)
  /\ (truthy (GEMINI_API_KEY cfg) = false ->
      Forall (fun ev => is_model_event ev = false) evs).

(** The arithmetic of lines 95-98 raises nothing but what the conversions
    between integers and floats raise. *)
Definition conversion_error (e : exn) : Prop :=
  exists msg, e = OverflowError msg \/ e = ValueError msg.


(** What every handler keeps, from the state [w] it starts in to its
    answer [out] and the state [w'] it leaves: the model is not touched,
    the trace grows by events of configured services, and the counters
    stay in [USAGE_STATS], in which case no [KeyError] is raised. *)
Definition step_facts {A} (cfg : Config) (w : World) (out : outcome A)
  (w' : World) : Prop :=
  model w' = model w
  /\ (exists evs, trace w' = (trace w ++ evs)%list /\ quiet cfg evs)
  /\ (counters_present (USAGE_STATS w) ->
      counters_present (USAGE_STATS w')
      /\ forall key, out <> Raise (KeyError key)).

#[global] Instance kind_eq_dec : EqDecision kind.
Proof. solve_decision. Defined.

(* ===================================================================== *)
(** * [app.py]: the three figures of the dashboard *)
(* ===================================================================== *)

(** Lines 131-138 of [app.py]: the changes that the dashboard shows next
    to the simulated runway, burn and profit. *)
Record Deltas := {
  runway_delta : Z;
  burn_delta : Z;
  profit_delta : Z
}.

Definition dashboard_deltas (base_metrics : Metrics)
  (simulated : SimulatedMetrics) : Deltas :=
  let base_profit :=
    monthly_revenue base_metrics - monthly_cogs base_metrics
    - monthly_opex base_metrics in
  let base_burn := monthly_opex base_metrics in
  {| runway_delta := sim_runway simulated - runway base_metrics;
     burn_delta := sim_monthly_burn simulated - base_burn;
     profit_delta := sim_monthly_profit simulated - base_profit |}.

(* ===================================================================== *)
(** * Facts on binary64 arithmetic *)
(* ===================================================================== *)

(** Integers below [2^53] in magnitude are floats, and sums and products
    of them that stay below [2^53] are computed without rounding. *)
Module PyFloatFacts.
Import PyFloat.

Lemma iter_pos_nat {A} (f : A -> A) p x :
  iter_pos f p x = Nat.iter (Pos.to_nat p) f x.
Proof.
  revert x. induction p as [p IH | p IH | ]; intros x; cbn [iter_pos].
  - rewrite !IH, Pos2Nat.inj_xI.
    replace (S (2 * Pos.to_nat p))%nat with (Pos.to_nat p + (Pos.to_nat p + 1))%nat by lia.
    rewrite !Nat.iter_add. simpl. reflexivity.
  - rewrite !IH, Pos2Nat.inj_xO.
    replace (2 * Pos.to_nat p)%nat with (Pos.to_nat p + Pos.to_nat p)%nat by lia.
    rewrite Nat.iter_add. reflexivity.
  - reflexivity.
Qed.

Lemma shr_1_double m : shr_1 (exact_record (2 * m)) = exact_record m.
Proof. destruct m; reflexivity. Qed.

Lemma iter_shr_1_exact n m :
  Nat.iter n shr_1 (exact_record (m * 2 ^ Z.of_nat n)) = exact_record m.
Proof.
  revert m. induction n as [|n IH]; intros m.
  - simpl. f_equal. lia.
  - rewrite Nat.iter_succ_r.
    replace (m * 2 ^ Z.of_nat (S n)) with (2 * (m * 2 ^ Z.of_nat n)).
    + rewrite shr_1_double. apply IH.
    + rewrite Nat2Z.inj_succ, Z.pow_succ_r by lia. ring.
Qed.

Lemma shr_exact m e n :
  0 <= n -> shr (exact_record (m * 2 ^ n)) e n = (exact_record m, e + n).
Proof.
  intros Hn. destruct n as [|p|p]; [| |lia].
  - simpl. rewrite Z.mul_1_r, Z.add_0_r. reflexivity.
  - unfold shr. rewrite iter_pos_nat.
    rewrite <- (positive_nat_Z p) at 1. rewrite iter_shr_1_exact. reflexivity.
Qed.

Lemma digits2_bounds p :
  2 ^ (Zpos (digits2_pos p) - 1) <= Zpos p < 2 ^ Zpos (digits2_pos p).
Proof.
  induction p as [p IH | p IH | ]; simpl digits2_pos.
  - rewrite Pos2Z.inj_succ, Z.pow_succ_r by lia.
    replace (Z.succ (Zpos (digits2_pos p)) - 1) with (Z.succ (Zpos (digits2_pos p) - 1)) by lia.
    rewrite Z.pow_succ_r by lia. lia.
  - rewrite Pos2Z.inj_succ, Z.pow_succ_r by lia.
    replace (Z.succ (Zpos (digits2_pos p)) - 1) with (Z.succ (Zpos (digits2_pos p) - 1)) by lia.
    rewrite Z.pow_succ_r by lia. lia.
  - simpl. lia.
Qed.

(** digits are determined by the bounds *)
Lemma digits2_unique p d :
  2 ^ (d - 1) <= Zpos p < 2 ^ d -> Zpos (digits2_pos p) = d.
Proof.
  intros [Hl Hu]. pose proof (digits2_bounds p) as [Hl' Hu'].
  assert (0 < d) as Hd.
  { destruct (Z_lt_le_dec 0 d); [easy|]. 
    assert (2 ^ d <= 1). { destruct (Z.eq_dec d 0); [subst; simpl; lia|]. rewrite Z.pow_neg_r by lia. lia. } lia. }
  destruct (Z_lt_le_dec (Zpos (digits2_pos p)) d) as [Hlt|Hge].
  - assert (2 ^ Zpos (digits2_pos p) <= 2 ^ (d - 1)) by (apply Z.pow_le_mono_r; lia). lia.
  - destruct (Z_lt_le_dec d (Zpos (digits2_pos p))) as [Hlt|Hge']; [|lia].
    assert (2 ^ d <= 2 ^ (Zpos (digits2_pos p) - 1)) by (apply Z.pow_le_mono_r; lia). lia.
Qed.

Lemma digits2_shift p q n :
  0 <= n -> Zpos q = Zpos p * 2 ^ n ->
  Zpos (digits2_pos q) = Zpos (digits2_pos p) + n.
Proof.
  intros Hn Hq. apply digits2_unique. rewrite Hq.
  pose proof (digits2_bounds p) as [Hl Hu].
  replace (Zpos (digits2_pos p) + n - 1) with ((Zpos (digits2_pos p) - 1) + n) by lia.
  rewrite !Z.pow_add_r by lia.
  assert (0 < 2 ^ n) by (apply Z.pow_pos_nonneg; lia).
  split; nia.
Qed.

(** Rounding a mantissa whose surplus bits are all zero is exact. *)
Lemma binary_round_aux_exact s M M' e n :
  0 <= n ->
  Zpos M = Zpos M' * 2 ^ n ->
  Zpos (digits2_pos M') = prec ->
  3 - emax - prec <= e + n <= emax - prec ->
  binary_round_aux prec emax s (Zpos M) e loc_Exact = S754_finite s M' (e + n).
Proof.
  intros Hn HM Hd He.
  pose proof (digits2_shift M' M n Hn HM) as HdM.
  unfold binary_round_aux, shr_fexp. simpl Zdigits2. simpl shr_record_of_loc.
  assert (fexp prec emax (Zpos (digits2_pos M) + e) - e = n) as ->.
  { unfold fexp, emin. rewrite HdM, Hd. lia. }
  change {| shr_m := Zpos M; shr_r := false; shr_s := false |} with (exact_record (Zpos M)).
  rewrite HM, shr_exact by lia. simpl.
  assert (fexp prec emax (Zpos (digits2_pos M') + (e + n)) - (e + n) = 0) as ->.
  { unfold fexp, emin. rewrite Hd. lia. }
  simpl. destruct (Z.leb_spec (e + n) (emax - prec)); [reflexivity | lia].
Qed.

Lemma shift_range p : Zpos p < 2 ^ prec -> 0 <= shift p <= prec - 1.
Proof.
  intros Hp. unfold shift. pose proof (digits2_bounds p) as [Hl Hu].
  assert (0 < Zpos (digits2_pos p)) by lia.
  split; [|lia].
  destruct (Z_lt_le_dec prec (Zpos (digits2_pos p))) as [Hlt|]; [|lia].
  assert (2 ^ prec <= 2 ^ (Zpos (digits2_pos p) - 1)) by (apply Z.pow_le_mono_r; lia).
  lia.
Qed.

Lemma canon_mantissa p :
  Zpos p < 2 ^ prec ->
  Zpos (Z.to_pos (Zpos p * 2 ^ shift p)) = Zpos p * 2 ^ shift p
  /\ Zpos (digits2_pos (Z.to_pos (Zpos p * 2 ^ shift p))) = prec.
Proof.
  intros Hp. pose proof (shift_range p Hp) as Hs.
  assert (0 < 2 ^ shift p) by (apply Z.pow_pos_nonneg; lia).
  assert (Zpos (Z.to_pos (Zpos p * 2 ^ shift p)) = Zpos p * 2 ^ shift p) as E
    by (apply Z2Pos.id; nia).
  split; [exact E|].
  rewrite (digits2_shift p _ (shift p)); [unfold shift; lia | lia | exact E].
Qed.

Lemma pos_iter_xO p d : Zpos (Pos.iter xO p d) = Zpos p * 2 ^ Zpos d.
Proof.
  induction d as [|d IH] using Pos.peano_ind.
  - simpl. lia.
  - rewrite Pos.iter_succ, Pos2Z.inj_xO, IH, Pos2Z.inj_succ, Z.pow_succ_r by lia. ring.
Qed.

Lemma shl_align_value m e e' :
  e' <= e ->
  Zpos (fst (shl_align m e e')) = Zpos m * 2 ^ (e - e')
  /\ snd (shl_align m e e') = e'.
Proof.
  intros He. unfold shl_align.
  destruct (e' - e) as [|d|d] eqn:E; simpl.
  - replace (e - e') with 0 by lia. split; lia.
  - lia.
  - rewrite pos_iter_xO. replace (e - e') with (Zpos d) by lia. split; [reflexivity|lia].
Qed.

(** Rounding an integer below [2^53], given with any scaling, yields its
    canonical representation. *)
Lemma binary_round_int s P c K :
  0 <= K <= 1000 ->
  Zpos c < 2 ^ prec ->
  Zpos P = Zpos c * 2 ^ K ->
  binary_round prec emax s P (- K) = canon s c.
Proof.
  intros HK Hc HP.
  pose proof (shift_range c Hc) as Hs.
  destruct (canon_mantissa c Hc) as [Em Ed].
  pose proof (digits2_shift c P K (proj1 HK) HP) as HdP.
  unfold binary_round.
  assert (fexp prec emax (Zpos (digits2_pos P) + - K) = - shift c) as ->.
  { unfold fexp, emin, shift in *. unfold prec, emax in *. lia. }
  destruct (Z_lt_le_dec K (shift c)) as [Hlt|Hge].
  - pose proof (shl_align_value P (- K) (- shift c) ltac:(lia)) as [Hv He].
    destruct (shl_align P (- K) (- shift c)) as [mz ez]. simpl in Hv, He. subst ez.
    replace (- shift c) with (- shift c + 0) at 2 by lia.
    unfold canon.
    rewrite (binary_round_aux_exact s mz (Z.to_pos (Zpos c * 2 ^ shift c)) (- shift c) 0);
      [rewrite Z.add_0_r; reflexivity | lia | | exact Ed | unfold prec, emax in *; lia].
    rewrite Hv, HP, Em, Z.pow_0_r, Z.mul_1_r, <- Z.mul_assoc, <- Z.pow_add_r by lia.
    f_equal. f_equal. lia.
  - unfold shl_align.
    assert (exists q, - shift c - - K = q /\ 0 <= q) as (q & -> & Hq) by (eexists; split; [reflexivity|lia]).
    assert ((let (mz, ez) := match q with Zneg d => (Pos.iter xO P d, - shift c) | _ => (P, - K) end in
             binary_round_aux prec emax s (Zpos mz) ez loc_Exact)
            = binary_round_aux prec emax s (Zpos P) (- K) loc_Exact) as ->
      by (destruct q; [reflexivity | reflexivity | lia]).
    unfold canon.
    rewrite (binary_round_aux_exact s P (Z.to_pos (Zpos c * 2 ^ shift c)) (- K) (K - shift c));
      [f_equal; lia | lia | | exact Ed | unfold prec, emax in *; lia].
    rewrite HP, Em, <- Z.mul_assoc, <- Z.pow_add_r by lia. f_equal. f_equal. lia.
Qed.

Lemma round_int_small n : Z.abs n < 2 ^ prec -> round_int n = exact n.
Proof.
  intros Hn. destruct n as [|p|p]; [reflexivity| |];
    unfold round_int, binary_normalize, exact;
    change 0 with (- 0); apply binary_round_int; simpl in *; lia.
Qed.

Lemma to_int_canon s p :
  Zpos p < 2 ^ prec -> to_int (canon s p) = Ok (cond_Zopp s (Zpos p)).
Proof.
  intros Hp. pose proof (shift_range p Hp) as Hs.
  destruct (canon_mantissa p Hp) as [Em _].
  unfold canon, to_int. f_equal. f_equal.
  destruct (shift p) as [|k|k] eqn:E; [| |lia].
  - change (- 0) with 0. cbv iota. rewrite Z.shiftl_0_r, Em. simpl. lia.
  - change (- Z.pos k) with (Z.neg k). cbv iota.
    rewrite Z.shiftr_div_pow2, Em by lia.
    apply Z.div_mul. apply Z.pow_nonzero; lia.
Qed.

Lemma to_int_exact n : Z.abs n < 2 ^ prec -> to_int (exact n) = Ok n.
Proof.
  intros Hn. destruct n as [|p|p]; [reflexivity| |]; unfold exact;
    rewrite to_int_canon by (simpl in *; lia); reflexivity.
Qed.

Lemma binary_normalize_int n K :
  0 <= K <= 1000 -> Z.abs n < 2 ^ prec ->
  binary_normalize prec emax (n * 2 ^ K) (- K) false = exact n.
Proof.
  intros HK Hn.
  assert (0 < 2 ^ K) as Hpow by (apply Z.pow_pos_nonneg; lia).
  destruct n as [|p|p].
  - reflexivity.
  - destruct (Zpos p * 2 ^ K) as [|P|P] eqn:E; [lia| |lia].
    simpl. apply binary_round_int; [lia | simpl in Hn; lia | lia].
  - destruct (Zneg p * 2 ^ K) as [|P|P] eqn:E; [lia|lia|].
    simpl. apply binary_round_int; [lia | simpl in Hn; lia | lia].
Qed.

Lemma add_canon sa a sb b :
  Zpos a < 2 ^ prec -> Zpos b < 2 ^ prec ->
  Z.abs (cond_Zopp sa (Zpos a) + cond_Zopp sb (Zpos b)) < 2 ^ prec ->
  add (canon sa a) (canon sb b) = exact (cond_Zopp sa (Zpos a) + cond_Zopp sb (Zpos b)).
Proof.
  intros Ha Hb Hab.
  pose proof (shift_range a Ha) as Hsa. pose proof (shift_range b Hb) as Hsb.
  unfold add, canon, SFadd.
  set (ez := Z.min (- shift a) (- shift b)).
  destruct (shl_align_value (Z.to_pos (Zpos a * 2 ^ shift a)) (- shift a) ez ltac:(lia)) as [Va _].
  destruct (shl_align_value (Z.to_pos (Zpos b * 2 ^ shift b)) (- shift b) ez ltac:(lia)) as [Vb _].
  destruct (canon_mantissa a Ha) as [Ea _]. destruct (canon_mantissa b Hb) as [Eb _].
  rewrite Ea in Va. rewrite Eb in Vb.
  assert (0 <= - ez <= 1000) as HK by (unfold prec in *; lia).
  rewrite <- (binary_normalize_int _ (- ez) HK Hab).
  rewrite Z.opp_involutive. f_equal.
  rewrite Z.mul_add_distr_r.
  f_equal.
  - transitivity (cond_Zopp sa (Zpos a * 2 ^ shift a * 2 ^ (- shift a - ez))).
    + destruct sa; simpl; rewrite Va; reflexivity.
    + rewrite <- Z.mul_assoc, <- Z.pow_add_r by lia.
      replace (shift a + (- shift a - ez)) with (- ez) by lia.
      destruct sa; simpl; lia.
  - transitivity (cond_Zopp sb (Zpos b * 2 ^ shift b * 2 ^ (- shift b - ez))).
    + destruct sb; simpl; rewrite Vb; reflexivity.
    + rewrite <- Z.mul_assoc, <- Z.pow_add_r by lia.
      replace (shift b + (- shift b - ez)) with (- ez) by lia.
      destruct sb; simpl; lia.
Qed.

Lemma add_exact a b :
  Z.abs a < 2 ^ prec -> Z.abs b < 2 ^ prec -> Z.abs (a + b) < 2 ^ prec ->
  add (exact a) (exact b) = exact (a + b).
Proof.
  intros Ha Hb Hab.
  destruct a as [|a|a], b as [|b|b]; try reflexivity.
  - apply (add_canon false a false b); simpl in *; lia.
  - apply (add_canon false a true b); simpl in *; lia.
  - apply (add_canon true a false b); simpl in *; lia.
  - apply (add_canon true a true b); simpl in *; lia.
Qed.

Lemma digits2_mul_lower a b :
  Zpos (digits2_pos a) + Zpos (digits2_pos b) - 1 <= Zpos (digits2_pos (a * b)).
Proof.
  pose proof (digits2_bounds a) as [La _]. pose proof (digits2_bounds b) as [Lb _].
  pose proof (digits2_bounds (a * b)) as [_ Uab].
  assert (0 < Zpos (digits2_pos a)) by lia. assert (0 < Zpos (digits2_pos b)) by lia.
  assert (2 ^ (Zpos (digits2_pos a) - 1 + (Zpos (digits2_pos b) - 1)) <= Zpos (a * b)) as L.
  { rewrite Z.pow_add_r, Pos2Z.inj_mul by lia.
    apply Z.mul_le_mono_nonneg; try lia; apply Z.pow_nonneg; lia. }
  destruct (Z_lt_le_dec (Zpos (digits2_pos (a * b)))
              (Zpos (digits2_pos a) + Zpos (digits2_pos b) - 1)) as [Hlt|]; [|lia].
  assert (2 ^ Zpos (digits2_pos (a * b))
          <= 2 ^ (Zpos (digits2_pos a) - 1 + (Zpos (digits2_pos b) - 1)))
    by (apply Z.pow_le_mono_r; lia).
  lia.
Qed.

Lemma mul_canon sa a sb b :
  Zpos (a * b) < 2 ^ prec ->
  mul (canon sa a) (canon sb b) = canon (xorb sa sb) (a * b).
Proof.
  intros Hab.
  assert (Zpos a < 2 ^ prec /\ Zpos b < 2 ^ prec) as [Ha Hb].
  { rewrite Pos2Z.inj_mul in Hab. split; nia. }
  pose proof (shift_range a Ha) as Hsa. pose proof (shift_range b Hb) as Hsb.
  pose proof (shift_range (a * b) Hab) as Hsab.
  destruct (canon_mantissa a Ha) as [Ea _]. destruct (canon_mantissa b Hb) as [Eb _].
  destruct (canon_mantissa (a * b) Hab) as [Eab Dab].
  pose proof (digits2_mul_lower a b) as Hd.
  unfold mul, canon, SFmul.
  rewrite (binary_round_aux_exact _ _ (Z.to_pos (Zpos (a * b) * 2 ^ shift (a * b)))
             _ (shift a + shift b - shift (a * b)));
    [f_equal; lia | unfold shift in *; lia | | exact Dab | unfold shift, prec, emax in *; lia].
  rewrite Pos2Z.inj_mul, Ea, Eb, Eab, Pos2Z.inj_mul.
  rewrite <- (Z.mul_assoc _ (2 ^ shift (a * b))), <- Z.pow_add_r by (unfold shift in *; lia).
  replace (shift (a * b) + (shift a + shift b - shift (a * b))) with (shift a + shift b) by lia.
  rewrite Z.pow_add_r by lia. ring.
Qed.

Lemma mul_exact a b :
  0 < b -> Z.abs (a * b) < 2 ^ prec -> mul (exact a) (exact b) = exact (a * b).
Proof.
  intros Hb Hab. destruct b as [|b|b]; [lia| |lia].
  destruct a as [|a|a]; [reflexivity| |]; simpl Z.mul; unfold exact.
  - apply (mul_canon false a false b). simpl in Hab. lia.
  - apply (mul_canon true a false b). simpl in Hab. lia.
Qed.

Lemma exact_finite n : is_finite (exact n) = true.
Proof. destruct n; reflexivity. Qed.

Lemma of_int_small n : Z.abs n < 2 ^ prec -> of_int n = Ok (exact n).
Proof.
  intros Hn. unfold of_int. rewrite (round_int_small n Hn), exact_finite.
  reflexivity.
Qed.

End PyFloatFacts.

(* ===================================================================== *)
(** * The usage counter *)
(* ===================================================================== *)

Lemma increment_run key n w :
  USAGE_STATS w !! key = Some n ->
  increment key w
  = (Ok tt, updated w (<[key := n + 1]> (USAGE_STATS w)) [Incremented key]
              (usage_replies w)).
Proof.
  intros Hn. unfold increment, bind, read_usage_stats. rewrite Hn. reflexivity.
Qed.

(** Without a metering service, an event of a counted kind bumps its
    counter and nothing else. *)
Lemma log_local cfg k cust w n :
  truthy (FLEXPRICE_API_KEY cfg) = false ->
  USAGE_STATS w !! counter_of k = Some n ->
  log_flexprice_event cfg (event_name_of k) cust w
  = (Ok (<[counter_of k := n + 1]> (USAGE_STATS w)),
     updated w (<[counter_of k := n + 1]> (USAGE_STATS w))
       [Incremented (counter_of k)] (usage_replies w)).
Proof.
  intros Hkey Hn. unfold log_flexprice_event, get_usage_stats, bind.
  rewrite Hkey.
  destruct k; simpl in *; rewrite (increment_run _ n w Hn); reflexivity.
Qed.

(** With or without a metering service, an event of a counted kind is
    logged without an exception; what the service reports, if it answers,
    overrides the counters. *)
Lemma log_run cfg k cust w n :
  USAGE_STATS w !! counter_of k = Some n ->
  exists stats w',
    log_flexprice_event cfg (event_name_of k) cust w = (Ok stats, w')
    /\ model w' = model w
    /\ USAGE_STATS w'
       = match fetched cfg w with
         | Some data => data ∪ <[counter_of k := n + 1]> (USAGE_STATS w)
         | None => <[counter_of k := n + 1]> (USAGE_STATS w)
         end
    /\ stats = match fetched cfg w with
               | Some data => data
               | None => USAGE_STATS w'
               end
    /\ trace w'
       = (trace w ++ Incremented (counter_of k)
            :: (if truthy (FLEXPRICE_API_KEY cfg)
                then [MeterPost (event_name_of k) cust; UsageGet cust]
                else []))%list.
Proof.
  intros Hn. unfold fetched.
  destruct (truthy (FLEXPRICE_API_KEY cfg)) eqn:Hkey.
  - unfold log_flexprice_event, get_usage_stats, bind. rewrite Hkey.
    destruct k; simpl in *; rewrite (increment_run _ n w Hn); simpl;
      destruct (usage_replies w) as [|[data|] rest]; simpl;
      eexists _, _; (split; [reflexivity|]);
      simpl; rewrite <- ?app_assoc; auto.
  - rewrite (log_local cfg k cust w n Hkey Hn). eexists _, _.
    split; [reflexivity|]. simpl. auto.
Qed.

(** The three counters stay in [USAGE_STATS]. *)
Lemma counters_present_initial : counters_present initial_usage_stats.
Proof. intros []; vm_compute; eauto. Qed.

Lemma counters_present_log cfg k cust w :
  counters_present (USAGE_STATS w) ->
  exists stats w',
    log_flexprice_event cfg (event_name_of k) cust w = (Ok stats, w')
    /\ counters_present (USAGE_STATS w').
Proof.
  intros Hw. destruct (Hw k) as [n Hn].
  destruct (log_run cfg k cust w n Hn) as (stats & w' & Hrun & _ & Hst & _).
  exists stats, w'. split; [exact Hrun|].
  intros k'. rewrite Hst. destruct (Hw k') as [n' Hn'].
  assert (is_Some (<[counter_of k := n + 1]> (USAGE_STATS w) !! counter_of k')) as Hins.
  { rewrite lookup_insert. case_decide; eauto. }
  destruct (fetched cfg w) as [data|]; [|exact Hins].
  rewrite lookup_union. destruct (data !! counter_of k') as [x|] eqn:E.
  - destruct Hins as [y ->]. simpl. eauto.
  - destruct Hins as [y ->]. simpl. eauto.
Qed.

(* ===================================================================== *)
(** * The scenario engine *)
(* ===================================================================== *)

Lemma per_hire_monthly_value : per_hire_monthly = Ok (PyFloat.exact 6250).
Proof. reflexivity. Qed.

(** Lines 96-98 are exact on amounts below [2^53]: the hiring cost is a
    whole number, and no sum is rounded. *)
Lemma new_monthly_opex_exact base h mk :
  0 <= h -> 0 <= mk -> 0 <= monthly_opex base ->
  monthly_opex base + 6250 * h + mk < 2 ^ 53 ->
  new_monthly_opex base h mk = Ok (monthly_opex base + 6250 * h + mk).
Proof.
  intros Hh Hmk Hopex Hsum.
  change (2 ^ 53) with (2 ^ PyFloat.prec) in Hsum.
  unfold new_monthly_opex. rewrite per_hire_monthly_value. cbn [obind].
  rewrite !PyFloatFacts.of_int_small by lia. cbn [obind].
  rewrite PyFloatFacts.mul_exact by lia.
  rewrite !PyFloatFacts.add_exact by lia.
  rewrite PyFloatFacts.to_int_exact by lia.
  f_equal. lia.
Qed.

(** Line 95 raises nothing but what [int] raises on the float product. *)
Lemma new_monthly_revenue_float base pct :
  Z.abs (monthly_revenue base) < 2 ^ 53 ->
  new_monthly_revenue base pct = PyFloat.to_int (float_revenue base pct).
Proof.
  intros Hrev. change (2 ^ 53) with (2 ^ PyFloat.prec) in Hrev.
  unfold new_monthly_revenue, float_revenue.
  change (PyFloat.truediv pct PyFloat.lit_100)
    with (Ok (SFdiv PyFloat.prec PyFloat.emax pct PyFloat.lit_100)).
  change (PyFloat.of_int 1) with (Ok (PyFloat.round_int 1)).
  cbn [obind].
  rewrite PyFloatFacts.of_int_small by lia.
  rewrite (PyFloatFacts.round_int_small (monthly_revenue base)) by lia.
  reflexivity.
Qed.

(** A price left as it is leaves the revenue as it is. *)
Lemma new_monthly_revenue_unchanged base s :
  Z.abs (monthly_revenue base) < 2 ^ 53 ->
  new_monthly_revenue base (S754_zero s) = Ok (monthly_revenue base).
Proof.
  intros Hrev. rewrite new_monthly_revenue_float by exact Hrev.
  change (2 ^ 53) with (2 ^ PyFloat.prec) in Hrev.
  unfold float_revenue.
  rewrite (PyFloatFacts.round_int_small (monthly_revenue base)) by lia.
  replace (PyFloat.add (PyFloat.round_int 1)
             (SFdiv PyFloat.prec PyFloat.emax (S754_zero s) PyFloat.lit_100))
    with (PyFloat.exact 1) by (destruct s; reflexivity).
  rewrite PyFloatFacts.mul_exact by lia.
  rewrite Z.mul_1_r. apply PyFloatFacts.to_int_exact. lia.
Qed.

(** The bounds of [new_monthly_opex_exact] and the finiteness of the
    product are needed: beyond [2^53] an amount is rounded on its way
    through the floats, and a product beyond the range of the floats makes
    [int] raise. *)
Example new_monthly_opex_rounds :
  new_monthly_opex
    {| runway := 18; monthly_revenue := 220000; monthly_cogs := 40000;
       monthly_opex := 2 ^ 53 + 1 |} 0 0 = Ok (2 ^ 53).
Proof. vm_compute. reflexivity. Qed.

Example new_monthly_revenue_overflows :
  new_monthly_revenue initial_baseline (PyFloat.round_int (10 ^ 308))
  = Raise (OverflowError "cannot convert float infinity to integer").
Proof. vm_compute. reflexivity. Qed.

Example new_monthly_revenue_truncates :
  new_monthly_revenue
    {| runway := 18; monthly_revenue := -3; monthly_cogs := 0;
       monthly_opex := 0 |} (PyFloat.round_int 50) = Ok (-4).
Proof. vm_compute. reflexivity. Qed.

(** The fences around a reply of the model are removed. *)
Example cleaned_response_fenced :
  cleaned_response "```json
[49]
```
" = "[49]".
Proof. vm_compute. reflexivity. Qed.

Lemma simulate_scenario_inv cfg payload w r w' :
  simulate_scenario cfg payload w = (Ok r, w') ->
  exists revenue opex,
    new_monthly_revenue (baseline_metrics payload)
      (price_increase_percentage payload) = Ok revenue
    /\ new_monthly_opex (baseline_metrics payload) (hires payload)
         (marketing_spend_increase payload) = Ok opex
    /\ log_flexprice_event cfg "scenario_simulated" default_customer w
       = (Ok (usage_stats r), w')
    /\ simulated_metrics r = metrics_of (baseline_metrics payload) revenue opex.
Proof.
  unfold simulate_scenario, bind, lift, ret.
  destruct (new_monthly_revenue _ _) as [revenue|e]; [|discriminate].
  destruct (new_monthly_opex _ _ _) as [opex|e]; [|discriminate].
  destruct (log_flexprice_event _ _ _ w) as [[stats|e] w1]; [|discriminate].
  intros [= <- <-]. exists revenue, opex. auto.
Qed.

Lemma simulate_scenario_run cfg payload w revenue opex n :
  new_monthly_revenue (baseline_metrics payload)
    (price_increase_percentage payload) = Ok revenue ->
  new_monthly_opex (baseline_metrics payload) (hires payload)
    (marketing_spend_increase payload) = Ok opex ->
  USAGE_STATS w !! "scenarios_simulated" = Some n ->
  exists stats w',
    simulate_scenario cfg payload w
    = (Ok {| simulated_metrics :=
               metrics_of (baseline_metrics payload) revenue opex;
             usage_stats := stats |}, w').
Proof.
  intros Hrev Hopex Hn.
  destruct (log_run cfg scenario_simulated default_customer w n Hn)
    as (stats & w' & Hlog & _).
  exists stats, w'. unfold simulate_scenario, bind, lift, ret.
  rewrite Hrev, Hopex. simpl in Hlog. rewrite Hlog. reflexivity.
Qed.

(** The operating expenses of the specification are a whole number. *)
Lemma spec_monthly_opex_value base h mk :
  spec_monthly_opex base h mk = monthly_opex base + 6250 * h + mk.
Proof.
  unfold spec_monthly_opex.
  rewrite <- (Qfloor_Z (monthly_opex base + 6250 * h + mk)).
  apply Qfloor_comp. unfold Qeq. simpl. lia.
Qed.

(** C1 (as stated) fails: on the baseline of [/initial-data], a price
    increase of 15 percent gives a revenue of 252999, since the float
    product [220000 * 1.15] lies just below 253000, which is the value of
    the formula over the rationals. *)
Lemma C1_counterexample :
  ~ simulate_as_specified local_cfg (sample_payload 2 10000 15) fresh_world.
Proof.
  intros H. destruct H as (r & w' & Hrun & Hrev & _).
  - simpl. lia.
  - simpl. lia.
  - vm_compute. discriminate.
  - apply simulate_scenario_inv in Hrun.
    destruct Hrun as (revenue & opex & Hr & _ & _ & Hm).
    rewrite Hm in Hrev. simpl in Hrev.
    vm_compute in Hr. injection Hr as <-.
    vm_compute in Hrev. discriminate.
Qed.

(** C1 (amended): for amounts below [2^53], with [hires >= 0] and
    [marketing_spend_increase >= 0], whenever the float product of line 95
    is finite, [simulate] returns: monthly_revenue is that product,
    [revenue * (1 + pct / 100.0)] in binary64 arithmetic, truncated toward
    zero; monthly_opex is [floor(opex + hires * (75000 / 12) + marketing)],
    that is [opex + 6250 * hires + marketing]; and monthly_profit is
    [monthly_revenue - baseline.monthly_cogs - monthly_opex].  On the
    baseline (18, 220000, 40000, 150000) with 2 hires, 10000 of marketing
    and 10 percent it returns 242000, 172500 and 29500. *)
Theorem C1_simulate_amounts cfg base h mk pct w n revenue :
  0 <= h -> 0 <= mk ->
  Z.abs (monthly_revenue base) < 2 ^ 53 ->
  0 <= monthly_opex base ->
  monthly_opex base + 6250 * h + mk < 2 ^ 53 ->
  PyFloat.to_int (float_revenue base pct) = Ok revenue ->
  USAGE_STATS w !! "scenarios_simulated" = Some n ->
  (exists r w',
     simulate_scenario cfg
       {| hires := h; marketing_spend_increase := mk;
          price_increase_percentage := pct; baseline_metrics := base |} w
     = (Ok r, w')
     /\ sim_monthly_revenue (simulated_metrics r) = revenue
     /\ sim_monthly_opex (simulated_metrics r) = spec_monthly_opex base h mk
     /\ sim_monthly_opex (simulated_metrics r) = monthly_opex base + 6250 * h + mk
     /\ sim_monthly_profit (simulated_metrics r)
        = sim_monthly_revenue (simulated_metrics r) - monthly_cogs base
          - sim_monthly_opex (simulated_metrics r))
  /\ (exists r w',
        simulate_scenario cfg (sample_payload 2 10000 10) w = (Ok r, w')
        /\ sim_monthly_revenue (simulated_metrics r) = 242000
        /\ sim_monthly_opex (simulated_metrics r) = 172500
        /\ sim_monthly_profit (simulated_metrics r) = 29500).
Proof.
  intros Hh Hmk Hrev Hopex Hsum Hfloat Hn. split.
  - destruct (simulate_scenario_run cfg
                {| hires := h; marketing_spend_increase := mk;
                   price_increase_percentage := pct; baseline_metrics := base |}
                w revenue (monthly_opex base + 6250 * h + mk) n)
      as (stats & w' & Hrun).
    + simpl. rewrite new_monthly_revenue_float by exact Hrev. exact Hfloat.
    + simpl. apply new_monthly_opex_exact; assumption.
    + exact Hn.
    + eexists _, w'. split; [exact Hrun|]. simpl.
      rewrite spec_monthly_opex_value. auto.
  - destruct (simulate_scenario_run cfg (sample_payload 2 10000 10)
                w 242000 172500 n) as (stats & w' & Hrun).
    + reflexivity.
    + reflexivity.
    + exact Hn.
    + eexists _, w'. split; [exact Hrun|]. simpl. auto.
Qed.

Lemma C1_simulate_amounts_witness :
  exists r w',
    simulate_scenario local_cfg (sample_payload 2 10000 15) fresh_world = (Ok r, w')
    /\ sim_monthly_revenue (simulated_metrics r) = 252999
    /\ sim_monthly_opex (simulated_metrics r) = 172500
    /\ sim_monthly_profit (simulated_metrics r) = 40499.
Proof.
  destruct (C1_simulate_amounts local_cfg initial_baseline 2 10000
              (PyFloat.round_int 15) fresh_world 0 252999)
    as [(r & w' & Hrun & Hrev & _ & Hopex & Hprofit) _].
  - lia.
  - lia.
  - simpl. lia.
  - simpl. lia.
  - simpl. lia.
  - vm_compute. reflexivity.
  - vm_compute. reflexivity.
  - exists r, w'. split; [exact Hrun|].
    rewrite Hprofit, Hrev, Hopex. simpl. auto.
Defined.

(** C2: whatever [simulate] returns, its runway is the sentinel 48 when
    the simulated net profit is not negative, and otherwise the floor of
    [starting_cash / net_cash_burn], not below 0; [starting_cash] is a
    function of the baseline alone: [runway * (- baseline_net_profit)] for
    a baseline that loses money, [monthly_revenue * 12] otherwise. *)
Theorem C2_runway cfg payload w r w' :
  simulate_scenario cfg payload w = (Ok r, w') ->
  let base := baseline_metrics payload in
  let profit := sim_monthly_profit (simulated_metrics r) in
  sim_runway (simulated_metrics r)
  = (if 0 <=? profit then 48
     else Z.max 0 (starting_cash base / (- profit)))
  /\ starting_cash base
     = (if baseline_net_profit base <? 0
        then runway base * (- baseline_net_profit base)
        else monthly_revenue base * 12)
  /\ baseline_net_profit base
     = monthly_revenue base - monthly_cogs base - monthly_opex base.
Proof.
  intros Hrun base profit.
  apply simulate_scenario_inv in Hrun.
  destruct Hrun as (revenue & opex & _ & _ & _ & Hm).
  subst profit. rewrite Hm. simpl. fold base. split; [|split].
  - unfold new_runway.
    set (p := revenue - monthly_cogs base - opex).
    destruct (Z.ltb_spec p 0), (Z.leb_spec 0 p); try lia.
    + destruct (Z.ltb_spec 0 (- p)); [reflexivity | lia].
    + reflexivity.
  - unfold starting_cash.
    destruct (Z.ltb_spec (baseline_net_profit base) 0).
    + destruct (Z.ltb_spec 0 (- baseline_net_profit base)); [reflexivity | lia].
    + reflexivity.
  - reflexivity.
Qed.

Lemma C2_runway_witness :
  exists r w',
    simulate_scenario local_cfg (sample_payload 2 100000 15) fresh_world
    = (Ok r, w')
    /\ sim_monthly_profit (simulated_metrics r) = -49501
    /\ starting_cash initial_baseline = 2640000
    /\ sim_runway (simulated_metrics r) = 53.
Proof.
  destruct (simulate_scenario local_cfg (sample_payload 2 100000 15) fresh_world)
    as [[r|e] w'] eqn:Hrun.
  - exists r, w'. split; [reflexivity|].
    destruct (C2_runway _ _ _ _ _ Hrun) as (Hrunway & _ & _).
    apply simulate_scenario_inv in Hrun.
    destruct Hrun as (revenue & opex & Hrev & Hopex & _ & Hm).
    vm_compute in Hrev. vm_compute in Hopex.
    injection Hrev as <-. injection Hopex as <-.
    rewrite Hrunway, Hm. vm_compute. auto.
  - vm_compute in Hrun. discriminate.
Defined.

(** C9: in every result of [simulate], monthly_burn and monthly_opex are
    the same number, the new monthly operating expenses. *)
Theorem C9_burn_is_opex cfg payload w r w' :
  simulate_scenario cfg payload w = (Ok r, w') ->
  sim_monthly_burn (simulated_metrics r) = sim_monthly_opex (simulated_metrics r)
  /\ new_monthly_opex (baseline_metrics payload) (hires payload)
       (marketing_spend_increase payload)
     = Ok (sim_monthly_opex (simulated_metrics r)).
Proof.
  intros Hrun. apply simulate_scenario_inv in Hrun.
  destruct Hrun as (revenue & opex & _ & Hopex & _ & Hm).
  rewrite Hm, Hopex. simpl. auto.
Qed.

Lemma C9_burn_is_opex_witness :
  exists r w',
    simulate_scenario local_cfg (sample_payload 2 10000 10) fresh_world
    = (Ok r, w')
    /\ sim_monthly_burn (simulated_metrics r) = 172500
    /\ sim_monthly_opex (simulated_metrics r) = 172500.
Proof.
  destruct (simulate_scenario local_cfg (sample_payload 2 10000 10) fresh_world)
    as [[r|e] w'] eqn:Hrun.
  - exists r, w'. split; [reflexivity|].
    destruct (C9_burn_is_opex _ _ _ _ _ Hrun) as [Hburn Hopex].
    assert (new_monthly_opex initial_baseline 2 10000 = Ok 172500) as E
      by (vm_compute; reflexivity).
    simpl in Hopex. rewrite E in Hopex. injection Hopex as Hopex.
    rewrite Hburn, <- Hopex. auto.
  - vm_compute in Hrun. discriminate.
Defined.

(* ===================================================================== *)
(** * Counting events *)
(* ===================================================================== *)

Lemma log_many_local cfg k cust N :
  truthy (FLEXPRICE_API_KEY cfg) = false ->
  forall w n,
    USAGE_STATS w !! counter_of k = Some n ->
    exists w',
      log_many cfg (event_name_of k) cust N w = (Ok tt, w')
      /\ USAGE_STATS w' !! counter_of k = Some (n + Z.of_nat N)
      /\ forall key, key <> counter_of k ->
                     USAGE_STATS w' !! key = USAGE_STATS w !! key.
Proof.
  intros Hkey. induction N as [|N IH]; intros w n Hn.
  - exists w. simpl. rewrite Z.add_0_r. auto.
  - cbn [log_many]. unfold bind.
    rewrite (log_local cfg k cust w n Hkey Hn).
    set (w1 := updated w _ _ _).
    destruct (IH w1 (n + 1)) as (w' & Hrun & Hcount & Hframe).
    { subst w1. simpl. apply lookup_insert_eq. }
    exists w'. split; [exact Hrun|]. split.
    + rewrite Hcount. f_equal. lia.
    + intros key Hne. rewrite (Hframe key Hne). subst w1. simpl.
      apply lookup_insert_ne. congruence.
Qed.

(** C6: with no metering service configured, a call of [log_event] with
    one of the three kinds adds 1 to the counter of that kind, leaves every
    other counter as it was and returns the updated statistics; [N] calls
    in a row for one kind add [N] to its counter. *)
Theorem C6_log_event_counts cfg k cust w n :
  truthy (FLEXPRICE_API_KEY cfg) = false ->
  USAGE_STATS w !! counter_of k = Some n ->
  (exists w',
     log_flexprice_event cfg (event_name_of k) cust w = (Ok (USAGE_STATS w'), w')
     /\ USAGE_STATS w' !! counter_of k = Some (n + 1)
     /\ forall key, key <> counter_of k ->
                    USAGE_STATS w' !! key = USAGE_STATS w !! key)
  /\ (forall N, exists w',
        log_many cfg (event_name_of k) cust N w = (Ok tt, w')
        /\ USAGE_STATS w' !! counter_of k = Some (n + Z.of_nat N)
        /\ forall key, key <> counter_of k ->
                       USAGE_STATS w' !! key = USAGE_STATS w !! key).
Proof.
  intros Hkey Hn. split.
  - exists (updated w (<[counter_of k := n + 1]> (USAGE_STATS w))
              [Incremented (counter_of k)] (usage_replies w)).
    split; [apply (log_local cfg k cust w n Hkey Hn)|]. simpl. split.
    + apply lookup_insert_eq.
    + intros key Hne. apply lookup_insert_ne. congruence.
  - intros N. apply log_many_local; assumption.
Qed.

Lemma C6_log_event_counts_witness :
  exists w',
    log_many local_cfg "report_exported" default_customer 3 fresh_world
    = (Ok tt, w')
    /\ USAGE_STATS w' !! "reports_exported" = Some 3
    /\ USAGE_STATS w' !! "scenarios_simulated" = Some 0
    /\ USAGE_STATS w' !! "ai_price_calculations" = Some 0.
Proof.
  destruct (C6_log_event_counts local_cfg report_exported default_customer
              fresh_world 0) as [_ Hmany].
  - reflexivity.
  - vm_compute. reflexivity.
  - destruct (Hmany 3%nat) as (w' & Hrun & Hcount & Hframe).
    exists w'. split; [exact Hrun|]. split; [exact Hcount|].
    split; (rewrite Hframe; [vm_compute; reflexivity | discriminate]).
Defined.

(* ===================================================================== *)
(** * The pricing assistant *)
(* ===================================================================== *)

Lemma calculate_price_with_model cfg json_loads payload w stats w1 :
  truthy (GEMINI_API_KEY cfg) = true ->
  log_flexprice_event cfg "ai_price_calculation" default_customer w
  = (Ok stats, w1) ->
  calculate_price cfg json_loads payload w
  = (price_outcome json_loads (model w1 (prompt_of payload)) stats,
     updated w1 (USAGE_STATS w1) [ModelCall (prompt_of payload)]
       (usage_replies w1)).
Proof.
  intros Hkey Hlog. unfold calculate_price, bind. rewrite Hlog, Hkey.
  unfold try_except, generate_content, bind, emit, lift, throw, price_outcome.
  simpl. unfold updated.
  destruct (model w1 (prompt_of payload)) as [text|msg]; simpl.
  - destruct (price_response json_loads text stats); reflexivity.
  - reflexivity.
Qed.

Lemma calculate_price_without_model cfg json_loads payload w stats w1 :
  truthy (GEMINI_API_KEY cfg) = false ->
  log_flexprice_event cfg "ai_price_calculation" default_customer w
  = (Ok stats, w1) ->
  calculate_price cfg json_loads payload w
  = (Ok (JObject [("optimal_price", JInt 999);
                  ("reasoning", JString "GEMINI_API_KEY not configured.");
                  ("usage_stats", JStats stats)]), w1).
Proof.
  intros Hkey Hlog. unfold calculate_price, bind. rewrite Hlog, Hkey.
  reflexivity.
Qed.

(** C7: with the model key configured, a reply whose text is not JSON once
    the fences are stripped makes [/flexprice/calculate] fail with the
    status 500 and a message that quotes the parser; no price is
    returned. *)
Theorem C7_malformed_model_output cfg json_loads payload w text msg :
  truthy (GEMINI_API_KEY cfg) = true ->
  counters_present (USAGE_STATS w) ->
  model w (prompt_of payload) = ReplyText text ->
  json_loads (cleaned_response text) = inl msg ->
  exists w',
    calculate_price cfg json_loads payload w
    = (Raise (HTTPException 500 ("Error with Gemini API: " ++ msg)%string), w')
    /\ forall j, fst (calculate_price cfg json_loads payload w) <> Ok j.
Proof.
  intros Hkey Hw Hmodel Hjson.
  destruct (Hw ai_price_calculation) as [n Hn].
  destruct (log_run cfg ai_price_calculation default_customer w n Hn)
    as (stats & w1 & Hlog & Hm & _).
  simpl in Hlog.
  rewrite (calculate_price_with_model _ _ _ _ _ _ Hkey Hlog).
  rewrite Hm, Hmodel. unfold price_outcome, price_response. rewrite Hjson.
  simpl. eexists. split; [reflexivity | discriminate].
Qed.

Lemma C7_malformed_model_output_witness :
  exists w',
    calculate_price model_cfg sample_json_loads sample_product fresh_world
    = (Raise (HTTPException 500
         "Error with Gemini API: Expecting value: line 1 column 1 (char 0)"),
       w').
Proof.
  destruct (C7_malformed_model_output model_cfg sample_json_loads sample_product
              fresh_world "The price should be 49."
              "Expecting value: line 1 column 1 (char 0)")
    as (w' & Hrun & _).
  - reflexivity.
  - exact counters_present_initial.
  - reflexivity.
  - vm_compute. reflexivity.
  - exists w'. exact Hrun.
Defined.



(** C10 (as stated) fails: with a metering service that answers, the
    statistics it reports replace the counter that was just incremented.
    Here the counter is 0 before the request and the service reports 58;
    the model's reply is not JSON, the request fails with the status 500,
    and the counter is 58, not 1. *)
Lemma C10_counterexample :
  ~ failure_counts_once metered_cfg sample_json_loads sample_product
      metered_world.
Proof.
  intros H.
  destruct (calculate_price metered_cfg sample_json_loads sample_product
              metered_world) as [out w'] eqn:Hrun.
  vm_compute in Hrun. injection Hrun as <- <-.
  specialize (H 0 _ _ eq_refl eq_refl).
  vm_compute in H. discriminate.
Qed.

(** C10 (amended): the counter of price calculations is incremented before
    the language model is contacted, so that a request which fails with a
    server error has counted all the same: the counter has advanced by 1,
    unless a metering service answered in that request with a value of
    its own for this counter, which then replaces it.  The failing request
    is not atomic with respect to the usage state. *)
Theorem C10_increment_before_model cfg json_loads payload w n e w' :
  truthy (GEMINI_API_KEY cfg) = true ->
  USAGE_STATS w !! "ai_price_calculations" = Some n ->
  calculate_price cfg json_loads payload w = (Raise e, w') ->
  (exists detail, e = HTTPException 500 detail)
  /\ (exists metering,
        trace w'
        = (trace w ++ Incremented "ai_price_calculations" :: metering
             ++ [ModelCall (prompt_of payload)])%list
        /\ forall prompt, ModelCall prompt ∉ metering)
  /\ USAGE_STATS w' !! "ai_price_calculations"
     = match fetched cfg w with
       | Some data =>
           match data !! "ai_price_calculations" with
           | Some reported => Some reported
           | None => Some (n + 1)
           end
       | None => Some (n + 1)
       end.
Proof.
  intros Hkey Hn Hrun.
  destruct (log_run cfg ai_price_calculation default_customer w n Hn)
    as (stats & w1 & Hlog & _ & Hstats & _ & Htrace).
  simpl in Hlog, Hstats, Htrace.
  rewrite (calculate_price_with_model _ _ _ _ _ _ Hkey Hlog) in Hrun.
  injection Hrun as Hout <-. split; [|split].
  - unfold price_outcome in Hout.
    destruct (match model w1 (prompt_of payload) with
              | ReplyText text => price_response json_loads text stats
              | ReplyError msg => Raise (ModelError msg)
              end); [discriminate|].
    injection Hout as <-. eauto.
  - exists (if truthy (FLEXPRICE_API_KEY cfg)
            then [MeterPost "ai_price_calculation" default_customer;
                  UsageGet default_customer]
            else []).
    split.
    + simpl. rewrite Htrace, <- app_assoc. reflexivity.
    + intros prompt Hin.
      destruct (truthy (FLEXPRICE_API_KEY cfg)).
      * apply elem_of_cons in Hin as [Hin|Hin]; [discriminate|].
        apply elem_of_cons in Hin as [Hin|Hin]; [discriminate|].
        apply elem_of_nil in Hin. exact Hin.
      * apply elem_of_nil in Hin. exact Hin.
  - simpl. rewrite Hstats.
    destruct (fetched cfg w) as [data|].
    + rewrite lookup_union, lookup_insert_eq.
      destruct (data !! "ai_price_calculations"); reflexivity.
    + apply lookup_insert_eq.
Qed.

Lemma C10_increment_before_model_witness :
  exists detail w',
    calculate_price model_cfg sample_json_loads sample_product fresh_world
    = (Raise (HTTPException 500 detail), w')
    /\ USAGE_STATS fresh_world !! "ai_price_calculations" = Some 0
    /\ USAGE_STATS w' !! "ai_price_calculations" = Some 1.
Proof.
  destruct (calculate_price model_cfg sample_json_loads sample_product fresh_world)
    as [[j|e] w'] eqn:Hrun.
  - vm_compute in Hrun. discriminate.
  - destruct (C10_increment_before_model model_cfg sample_json_loads
                sample_product fresh_world 0 e w')
      as ((detail & ->) & _ & Hcount).
    + reflexivity.
    + vm_compute. reflexivity.
    + exact Hrun.
    + exists detail, w'. split; [reflexivity|]. split; [vm_compute; reflexivity|].
      exact Hcount.
Defined.

(* ===================================================================== *)
(** * The forecast projector *)
(* ===================================================================== *)

Lemma metrics_dict_lookup m :
  metrics_dict m !! "runway" = Some (runway m)
  /\ metrics_dict m !! "monthly_revenue" = Some (monthly_revenue m)
  /\ metrics_dict m !! "monthly_cogs" = Some (monthly_cogs m)
  /\ metrics_dict m !! "monthly_opex" = Some (monthly_opex m).
Proof. unfold metrics_dict. repeat split; by simplify_map_eq. Qed.

(** What [build_forecast_df] computes when the dictionary has what it
    reads. *)
Lemma build_forecast_df_run (metrics : gmap string Z) revenue cogs opex :
  metrics !! "monthly_revenue" = Some revenue ->
  metrics !! "monthly_cogs" = Some cogs ->
  metrics !! "monthly_opex" = Some opex ->
  (metrics !! "runway" = None -> 0 <= revenue - cogs - opex) ->
  exists cash,
    build_forecast_df metrics
    = Ok {| Month := py_range 1 (horizon (metrics !! "runway") + 1);
            Cash_Balance :=
              cash_at cash (revenue - cogs - opex)
                <$> py_range 0 (horizon (metrics !! "runway")) |}
    /\ cash = (if revenue - cogs - opex <? 0
               then default 0 (metrics !! "runway") * - (revenue - cogs - opex)
               else revenue * 12).
Proof.
  intros Hrev Hcogs Hopex Hrunway.
  unfold build_forecast_df, getitem. rewrite Hrev, Hcogs, Hopex. cbn [obind].
  set (net := revenue - cogs - opex) in *.
  destruct (Z.ltb_spec net 0) as [Hneg|Hpos].
  - destruct (Z.ltb_spec 0 (- net)) as [_|]; [|lia].
    destruct (metrics !! "runway") as [r|] eqn:Hr; [|specialize (Hrunway eq_refl); lia].
    cbn [obind default horizon]. eexists. split; reflexivity.
  - change (0 <? 0) with false. cbv iota. cbn [obind].
    destruct (metrics !! "runway") as [r|] eqn:Hr;
      cbn [default horizon]; eexists; split; reflexivity.
Qed.

Lemma project_run m :
  project m
  = Ok {| Month := py_range 1 (horizon (Some (runway m)) + 1);
          Cash_Balance :=
            cash_at (starting_cash m) (baseline_net_profit m)
              <$> py_range 0 (horizon (Some (runway m))) |}.
Proof.
  destruct (metrics_dict_lookup m) as (Hr & Hrev & Hcogs & Hopex).
  destruct (build_forecast_df_run (metrics_dict m) _ _ _ Hrev Hcogs Hopex)
    as (cash & Hrun & Hcash).
  { rewrite Hr. discriminate. }
  unfold project. rewrite Hrun, Hr, Hcash. do 3 f_equal.
  unfold starting_cash, baseline_net_profit. simpl.
  destruct (Z.ltb_spec (monthly_revenue m - monthly_cogs m - monthly_opex m) 0).
  - destruct (Z.ltb_spec 0 (- (monthly_revenue m - monthly_cogs m - monthly_opex m)));
      [reflexivity | lia].
  - reflexivity.
Qed.

Lemma horizon_positive r : 1 <= horizon r.
Proof.
  destruct r as [r|]; simpl; [|lia]. destruct (Z.leb_spec r 0); lia.
Qed.

Lemma lookup_cash sc net h (i : nat) y :
  (cash_at sc net <$> py_range 0 h) !! i = Some y ->
  y = cash_at sc net (Z.of_nat i).
Proof.
  rewrite list_lookup_fmap. unfold py_range.
  destruct (seqZ 0 (h - 0) !! i) as [x|] eqn:E; [|discriminate].
  apply lookup_seqZ in E as [-> _]. simpl. intros [= <-]. f_equal; lia.
Qed.

(** C3 (as stated) fails: a runway of 0 is present and not positive, so
    that the stated rule resolves the horizon to 36; the forecast has one
    row. *)
Lemma C3_counterexample : ~ horizon_as_specified exhausted_baseline.
Proof.
  intros (df & Hrun & Hrows). rewrite project_run in Hrun.
  injection Hrun as <-. vm_compute in Hrows. discriminate.
Qed.

(** C3 (amended): for every metrics dictionary given to [project] (one
    that has its revenue, cost of goods and operating expenses, and its
    runway whenever it loses money), the forecast horizon resolves to
    metrics.runway if the runway is present, else to 36; and if the
    resolved horizon is <= 0 it is clamped to 1.  The forecast has that
    many rows, for the months 1 to the horizon. *)
Theorem C3_forecast_horizon (metrics : gmap string Z) revenue cogs opex :
  metrics !! "monthly_revenue" = Some revenue ->
  metrics !! "monthly_cogs" = Some cogs ->
  metrics !! "monthly_opex" = Some opex ->
  (metrics !! "runway" = None -> 0 <= revenue - cogs - opex) ->
  exists df,
    build_forecast_df metrics = Ok df
    /\ Month df = py_range 1 (horizon (metrics !! "runway") + 1)
    /\ Z.of_nat (List.length (Month df)) = horizon (metrics !! "runway")
    /\ Z.of_nat (List.length (Cash_Balance df)) = horizon (metrics !! "runway")
    /\ Z.of_nat (List.length (rows df)) = horizon (metrics !! "runway")
    /\ horizon (metrics !! "runway")
       = (let resolved := default 36 (metrics !! "runway") in
          if resolved <=? 0 then 1 else resolved).
Proof.
  intros Hrev Hcogs Hopex Hrunway.
  destruct (build_forecast_df_run metrics _ _ _ Hrev Hcogs Hopex Hrunway)
    as (cash & Hrun & _).
  pose proof (horizon_positive (metrics !! "runway")) as Hpos.
  eexists. split; [exact Hrun|]. unfold rows. simpl.
  rewrite length_zip, length_fmap. unfold py_range. rewrite !length_seqZ.
  repeat split; try lia.
  destruct (metrics !! "runway"); reflexivity.
Qed.

Lemma C3_forecast_horizon_witness :
  exists df,
    build_forecast_df (metrics_dict exhausted_baseline) = Ok df
    /\ Month df = [1]
    /\ Z.of_nat (List.length (rows df)) = 1.
Proof.
  destruct (C3_forecast_horizon (metrics_dict exhausted_baseline)
              220000 40000 150000)
    as (df & Hrun & Hmonth & _ & _ & Hrows & _).
  - vm_compute. reflexivity.
  - vm_compute. reflexivity.
  - vm_compute. reflexivity.
  - vm_compute. discriminate.
  - exists df. split; [exact Hrun|]. split.
    + rewrite Hmonth. vm_compute. reflexivity.
    + rewrite Hrows. vm_compute. reflexivity.
Defined.

(** C4: for every [Metrics] with a runway of 0, [project] returns a series
    of exactly one pair, and its month is 1. *)
Theorem C4_zero_runway m :
  runway m = 0 ->
  exists df cash_balance,
    project m = Ok df /\ rows df = [(1, cash_balance)].
Proof.
  intros Hr. rewrite project_run, Hr. eexists _, _. split; reflexivity.
Qed.

Lemma C4_zero_runway_witness :
  exists df, project exhausted_baseline = Ok df /\ rows df = [(1, 2640000)].
Proof.
  destruct (C4_zero_runway exhausted_baseline) as (df & c & Hrun & Hrows).
  - reflexivity.
  - exists df. split; [exact Hrun|].
    rewrite project_run in Hrun. injection Hrun as <-. reflexivity.
Defined.

(** C5: for every [Metrics], no cash balance in the series of [project]
    is negative; and when the net profit
    [monthly_revenue - monthly_cogs - monthly_opex] is negative, the
    series never increases and, from an entry that is 0 on, every entry
    is 0. *)
Theorem C5_cash_balance m :
  exists df,
    project m = Ok df
    /\ Forall (fun c => 0 <= c) (Cash_Balance df)
    /\ (monthly_revenue m - monthly_cogs m - monthly_opex m < 0 ->
        non_increasing (Cash_Balance df) /\ stays_zero (Cash_Balance df)).
Proof.
  eexists. split; [apply project_run|]. simpl. split.
  - apply Forall_forall. intros c Hc.
    apply list_elem_of_lookup in Hc as [i Hi].
    apply lookup_cash in Hi. subst c. unfold cash_at. lia.
  - intros Hnet. fold (baseline_net_profit m) in Hnet. split.
    + intros i j x y Hij Hi Hj.
      apply lookup_cash in Hi. apply lookup_cash in Hj. subst x y.
      unfold cash_at. nia.
    + intros i j y Hij Hi Hj.
      apply lookup_cash in Hi. apply lookup_cash in Hj. subst y.
      unfold cash_at in *. nia.
Qed.

Lemma C5_cash_balance_witness :
  exists df,
    project losing_baseline = Ok df
    /\ Cash_Balance df = [400; 320; 240; 160; 80]
    /\ non_increasing (Cash_Balance df).
Proof.
  destruct (C5_cash_balance losing_baseline) as (df & Hrun & _ & Hdown).
  exists df. split; [exact Hrun|]. split.
  - rewrite project_run in Hrun. injection Hrun as <-. reflexivity.
  - apply Hdown. simpl. lia.
Defined.

(* ===================================================================== *)
(** * Reading and logging the usage statistics *)
(* ===================================================================== *)

Lemma updated_same w :
  updated w (USAGE_STATS w) [] (usage_replies w) = w.
Proof. destruct w. unfold updated. simpl. rewrite app_nil_r. reflexivity. Qed.

Lemma get_usage_stats_run cfg cust w :
  get_usage_stats cfg cust w
  = (Ok (match fetched cfg w with
         | Some data => data
         | None => USAGE_STATS w
         end),
     updated w
       (match fetched cfg w with
        | Some data => data ∪ USAGE_STATS w
        | None => USAGE_STATS w
        end)
       (if truthy (FLEXPRICE_API_KEY cfg) then [UsageGet cust] else [])
       (if truthy (FLEXPRICE_API_KEY cfg) then tail (usage_replies w)
        else usage_replies w)).
Proof.
  unfold get_usage_stats, fetched.
  destruct (truthy (FLEXPRICE_API_KEY cfg)).
  - unfold bind, usage_get, read_usage_stats, set_usage_stats, ret, updated.
    destruct (usage_replies w) as [|[data|] rest]; reflexivity.
  - unfold read_usage_stats. rewrite updated_same. reflexivity.
Qed.


(** X2: an event whose name is none of the three counted names changes no
    counter: without a metering service the call returns the statistics
    and leaves the whole state as it is. *)
Theorem X2_unknown_event_ignored cfg event_name cust w :
  uncounted event_name ->
  truthy (FLEXPRICE_API_KEY cfg) = false ->
  log_flexprice_event cfg event_name cust w = (Ok (USAGE_STATS w), w).
Proof.
  intros (H1 & H2 & H3) Hkey.
  unfold log_flexprice_event, bind.
  apply String.eqb_neq in H1, H2, H3. rewrite H1, H2, H3, Hkey. simpl.
  rewrite get_usage_stats_run. unfold fetched. rewrite Hkey.
  rewrite updated_same. reflexivity.
Qed.

Lemma X2_unknown_event_ignored_witness :
  log_flexprice_event local_cfg "page_viewed" default_customer fresh_world
  = (Ok initial_usage_stats, fresh_world).
Proof.
  apply (X2_unknown_event_ignored local_cfg "page_viewed" default_customer
           fresh_world).
  - repeat split; discriminate.
  - reflexivity.
Defined.

(** X3: an outage of the metering service is not fatal.  When the service
    is configured but does not answer, an event of a counted kind is
    counted locally as if no service were configured: its counter goes up
    by 1, the others stay, and the local statistics are returned. *)
Theorem X3_metering_outage cfg k cust w n :
  fetched cfg w = None ->
  USAGE_STATS w !! counter_of k = Some n ->
  exists w',
    log_flexprice_event cfg (event_name_of k) cust w = (Ok (USAGE_STATS w'), w')
    /\ USAGE_STATS w' = <[counter_of k := n + 1]> (USAGE_STATS w).
Proof.
  intros Hfetch Hn.
  destruct (log_run cfg k cust w n Hn) as (stats & w' & Hrun & _ & Hst & Hret & _).
  rewrite Hfetch in Hst, Hret. subst stats. exists w'. auto.
Qed.

Lemma X3_metering_outage_witness :
  exists w',
    log_flexprice_event metered_cfg "report_exported" default_customer
      fresh_world = (Ok (USAGE_STATS w'), w')
    /\ USAGE_STATS w' !! "reports_exported" = Some 1.
Proof.
  destruct (X3_metering_outage metered_cfg report_exported default_customer
              fresh_world 0) as (w' & Hrun & Hst).
  - reflexivity.
  - vm_compute. reflexivity.
  - exists w'. split; [exact Hrun|]. rewrite Hst. apply lookup_insert_eq.
Defined.

(* ===================================================================== *)
(** * More on the scenario engine *)
(* ===================================================================== *)

Lemma of_int_raises n e : PyFloat.of_int n = Raise e -> conversion_error e.
Proof.
  unfold PyFloat.of_int. destruct (PyFloat.is_finite _); intros [= <-].
  eexists. left. reflexivity.
Qed.

Lemma to_int_raises x e : PyFloat.to_int x = Raise e -> conversion_error e.
Proof.
  destruct x; simpl; intros [= <-]; eexists; [left | right]; reflexivity.
Qed.

Lemma new_monthly_revenue_raises base pct e :
  new_monthly_revenue base pct = Raise e -> conversion_error e.
Proof.
  unfold new_monthly_revenue.
  change (PyFloat.truediv pct PyFloat.lit_100)
    with (Ok (SFdiv PyFloat.prec PyFloat.emax pct PyFloat.lit_100)).
  change (PyFloat.of_int 1) with (Ok (PyFloat.round_int 1)).
  cbn [obind].
  destruct (PyFloat.of_int (monthly_revenue base)) as [rev|e'] eqn:Hrev;
    cbn [obind].
  - apply to_int_raises.
  - intros [= <-]. exact (of_int_raises _ _ Hrev).
Qed.

Lemma new_monthly_opex_raises base h mk e :
  new_monthly_opex base h mk = Raise e -> conversion_error e.
Proof.
  unfold new_monthly_opex. rewrite per_hire_monthly_value. cbn [obind].
  destruct (PyFloat.of_int h) as [fh|e1] eqn:Hh; cbn [obind];
    [|intros [= <-]; exact (of_int_raises _ _ Hh)].
  destruct (PyFloat.of_int (monthly_opex base)) as [fo|e2] eqn:Ho; cbn [obind];
    [|intros [= <-]; exact (of_int_raises _ _ Ho)].
  destruct (PyFloat.of_int mk) as [fm|e3] eqn:Hm; cbn [obind];
    [|intros [= <-]; exact (of_int_raises _ _ Hm)].
  apply to_int_raises.
Qed.

(** A simulation that raises does so before the event is logged. *)
Lemma simulate_scenario_raises cfg payload w e w' n :
  USAGE_STATS w !! "scenarios_simulated" = Some n ->
  simulate_scenario cfg payload w = (Raise e, w') ->
  w' = w /\ conversion_error e.
Proof.
  intros Hn. unfold simulate_scenario, bind, lift, ret.
  destruct (new_monthly_revenue _ _) as [revenue|e1] eqn:Hrev.
  - destruct (new_monthly_opex _ _ _) as [opex|e2] eqn:Hopex.
    + destruct (log_run cfg scenario_simulated default_customer w n Hn)
        as (stats & w1 & Hlog & _).
      simpl in Hlog. rewrite Hlog. discriminate.
    + intros [= <- <-]. split; [reflexivity|].
      exact (new_monthly_opex_raises _ _ _ _ Hopex).
  - intros [= <- <-]. split; [reflexivity|].
    exact (new_monthly_revenue_raises _ _ _ Hrev).
Qed.

(** X4: a simulation is counted exactly when it succeeds.  Without a
    metering service, a simulation that returns has added 1 to
    scenarios_simulated and to nothing else, and answers with the updated
    statistics; one that fails (an amount out of the range of the floats)
    leaves the whole state as it was. *)
Theorem X4_simulation_counted_on_success cfg payload w n out w' :
  truthy (FLEXPRICE_API_KEY cfg) = false ->
  USAGE_STATS w !! "scenarios_simulated" = Some n ->
  simulate_scenario cfg payload w = (out, w') ->
  match out with
  | Ok r =>
      USAGE_STATS w' = <["scenarios_simulated" := n + 1]> (USAGE_STATS w)
      /\ usage_stats r = USAGE_STATS w'
  | Raise e => w' = w /\ conversion_error e
  end.
Proof.
  intros Hkey Hn Hrun. destruct out as [r|e].
  - apply simulate_scenario_inv in Hrun.
    destruct Hrun as (_ & _ & _ & _ & Hlog & _).
    pose proof (log_local cfg scenario_simulated default_customer w n Hkey Hn)
      as Hlocal.
    simpl in Hlocal. rewrite Hlocal in Hlog.
    injection Hlog as Hstats <-. simpl. auto.
  - exact (simulate_scenario_raises _ _ _ _ _ _ Hn Hrun).
Qed.

Lemma X4_simulation_counted_on_success_witness :
  exists e,
    simulate_scenario local_cfg
      {| hires := 2; marketing_spend_increase := 10000;
         price_increase_percentage := S754_infinity false;
         baseline_metrics := initial_baseline |} fresh_world
    = (Raise e, fresh_world).
Proof.
  destruct (simulate_scenario local_cfg
      {| hires := 2; marketing_spend_increase := 10000;
         price_increase_percentage := S754_infinity false;
         baseline_metrics := initial_baseline |} fresh_world)
    as [[r|e] w'] eqn:Hrun.
  - vm_compute in Hrun. discriminate.
  - exists e.
    destruct (X4_simulation_counted_on_success local_cfg _ fresh_world 0 _ _
                eq_refl eq_refl Hrun) as [-> _].
    reflexivity.
Defined.

Lemma new_runway_loss base profit :
  profit < 0 ->
  new_runway base profit = Z.max 0 (starting_cash base / (- profit)).
Proof.
  intros Hp. unfold new_runway.
  destruct (Z.ltb_spec profit 0); [|lia].
  destruct (Z.ltb_spec 0 (- profit)); [reflexivity | lia].
Qed.

Lemma new_runway_profit base profit :
  0 <= profit -> new_runway base profit = 48.
Proof.
  intros Hp. unfold new_runway. destruct (Z.ltb_spec profit 0); [lia|].
  reflexivity.
Qed.

(** X5: the scenario that changes nothing gives the baseline back.  With
    no hire, no marketing and a price increase of zero, for amounts below
    [2^53], [simulate] returns the baseline's revenue, cost of goods and
    operating expenses and its net profit; the runway is the baseline's
    own runway (not below 0) when the baseline loses money, and the
    sentinel 48, whatever the baseline's runway, when it does not. *)
Theorem X5_unchanged_scenario cfg base s w n :
  Z.abs (monthly_revenue base) < 2 ^ 53 ->
  0 <= monthly_opex base < 2 ^ 53 ->
  USAGE_STATS w !! "scenarios_simulated" = Some n ->
  exists r w',
    simulate_scenario cfg
      {| hires := 0; marketing_spend_increase := 0;
         price_increase_percentage := S754_zero s;
         baseline_metrics := base |} w = (Ok r, w')
    /\ sim_monthly_revenue (simulated_metrics r) = monthly_revenue base
    /\ sim_monthly_opex (simulated_metrics r) = monthly_opex base
    /\ sim_monthly_cogs (simulated_metrics r) = monthly_cogs base
    /\ sim_monthly_profit (simulated_metrics r) = baseline_net_profit base
    /\ sim_runway (simulated_metrics r)
       = (if baseline_net_profit base <? 0 then Z.max 0 (runway base) else 48).
Proof.
  intros Hrev Hopex Hn.
  destruct (simulate_scenario_run cfg
              {| hires := 0; marketing_spend_increase := 0;
                 price_increase_percentage := S754_zero s;
                 baseline_metrics := base |}
              w (monthly_revenue base) (monthly_opex base) n)
    as (stats & w' & Hrun).
  - simpl. apply new_monthly_revenue_unchanged. exact Hrev.
  - simpl. rewrite new_monthly_opex_exact by lia. f_equal. lia.
  - exact Hn.
  - eexists _, w'. split; [exact Hrun|]. simpl.
    fold (baseline_net_profit base). repeat split.
    destruct (Z.ltb_spec (baseline_net_profit base) 0) as [Hneg|Hpos].
    + rewrite new_runway_loss by exact Hneg. unfold starting_cash.
      destruct (Z.ltb_spec (baseline_net_profit base) 0); [|lia].
      destruct (Z.ltb_spec 0 (- baseline_net_profit base)); [|lia].
      rewrite Z.div_mul by lia. reflexivity.
    + apply new_runway_profit. exact Hpos.
Qed.

Lemma X5_unchanged_scenario_witness :
  exists r w',
    simulate_scenario local_cfg
      {| hires := 0; marketing_spend_increase := 0;
         price_increase_percentage := S754_zero false;
         baseline_metrics := losing_baseline |} fresh_world = (Ok r, w')
    /\ sim_monthly_profit (simulated_metrics r) = -80
    /\ sim_runway (simulated_metrics r) = 5.
Proof.
  destruct (X5_unchanged_scenario local_cfg losing_baseline false fresh_world 0)
    as (r & w' & Hrun & _ & _ & _ & Hprofit & Hrunway).
  - simpl. lia.
  - simpl. lia.
  - vm_compute. reflexivity.
  - exists r, w'. split; [exact Hrun|]. rewrite Hprofit, Hrunway.
    split; reflexivity.
Defined.

(** X6: the runway that [simulate] returns is never negative.  For a
    scenario that loses money, it is the number of whole months of burn
    that the starting cash covers: [runway * burn <= starting_cash <
    (runway + 1) * burn] when the starting cash is not negative, and 0
    when it is. *)
Theorem X6_runway_covers_burn cfg payload w r w' :
  simulate_scenario cfg payload w = (Ok r, w') ->
  let cash := starting_cash (baseline_metrics payload) in
  let burn := - sim_monthly_profit (simulated_metrics r) in
  let months := sim_runway (simulated_metrics r) in
  0 <= months
  /\ (0 < burn -> 0 <= cash ->
      months * burn <= cash < (months + 1) * burn)
  /\ (0 < burn -> cash < 0 -> months = 0).
Proof.
  intros Hrun cash burn months.
  apply simulate_scenario_inv in Hrun.
  destruct Hrun as (revenue & opex & _ & _ & _ & Hm).
  subst cash burn months. rewrite Hm. simpl.
  set (p := revenue - monthly_cogs (baseline_metrics payload) - opex).
  set (c := starting_cash (baseline_metrics payload)).
  split; [|split].
  - unfold new_runway. fold c.
    destruct (p <? 0); [|simpl; lia].
    destruct (0 <? - p); lia.
  - intros Hb Hc. rewrite new_runway_loss by lia. fold c.
    pose proof (Z.div_pos c (- p) Hc Hb) as Hq.
    rewrite Z.max_r by exact Hq.
    pose proof (Z.div_mod c (- p) ltac:(lia)) as Hdm.
    pose proof (Z.mod_pos_bound c (- p) Hb) as Hmod.
    nia.
  - intros Hb Hc. rewrite new_runway_loss by lia. fold c.
    assert (c / - p < 0) by (apply Z.div_lt_upper_bound; lia).
    lia.
Qed.

Lemma X6_runway_covers_burn_witness :
  exists r w',
    simulate_scenario local_cfg (sample_payload 2 100000 15) fresh_world
    = (Ok r, w')
    /\ 0 <= sim_runway (simulated_metrics r)
    /\ sim_runway (simulated_metrics r)
         * - sim_monthly_profit (simulated_metrics r) <= 2640000.
Proof.
  destruct (simulate_scenario local_cfg (sample_payload 2 100000 15) fresh_world)
    as [[r|e] w'] eqn:Hrun.
  - exists r, w'. split; [reflexivity|].
    destruct (X6_runway_covers_burn _ _ _ _ _ Hrun) as (Hpos & Hcover & _).
    split; [exact Hpos|].
    apply simulate_scenario_inv in Hrun.
    destruct Hrun as (revenue & opex & Hrev & Hopex & _ & Hm).
    vm_compute in Hrev. vm_compute in Hopex.
    injection Hrev as <-. injection Hopex as <-.
    rewrite Hm in Hcover |- *. apply Hcover; vm_compute; congruence.
  - vm_compute in Hrun. discriminate.
Defined.

(** X7: among the scenarios that lose money on one baseline, a larger
    loss never gives a longer runway. *)
Theorem X7_runway_monotone cfg p1 p2 w1 w2 r1 r2 w1' w2' :
  simulate_scenario cfg p1 w1 = (Ok r1, w1') ->
  simulate_scenario cfg p2 w2 = (Ok r2, w2') ->
  baseline_metrics p1 = baseline_metrics p2 ->
  sim_monthly_profit (simulated_metrics r1)
    <= sim_monthly_profit (simulated_metrics r2) ->
  sim_monthly_profit (simulated_metrics r2) < 0 ->
  sim_runway (simulated_metrics r1) <= sim_runway (simulated_metrics r2).
Proof.
  intros Hrun1 Hrun2 Hbase.
  apply simulate_scenario_inv in Hrun1, Hrun2.
  destruct Hrun1 as (rev1 & opex1 & _ & _ & _ & ->).
  destruct Hrun2 as (rev2 & opex2 & _ & _ & _ & ->).
  simpl. rewrite Hbase.
  set (q1 := rev1 - monthly_cogs (baseline_metrics p2) - opex1).
  set (q2 := rev2 - monthly_cogs (baseline_metrics p2) - opex2).
  set (c := starting_cash (baseline_metrics p2)).
  intros Hle Hneg. rewrite !new_runway_loss by lia. fold c.
  destruct (Z_lt_le_dec c 0) as [Hc|Hc].
  - assert (c / - q1 < 0) by (apply Z.div_lt_upper_bound; lia).
    assert (c / - q2 < 0) by (apply Z.div_lt_upper_bound; lia).
    lia.
  - assert (c / - q1 <= c / - q2) by (apply Z.div_le_compat_l; lia).
    lia.
Qed.

Lemma X7_runway_monotone_witness :
  exists r1 r2 w1 w2,
    simulate_scenario local_cfg (sample_payload 2 200000 15) fresh_world
    = (Ok r1, w1)
    /\ simulate_scenario local_cfg (sample_payload 2 100000 15) fresh_world
       = (Ok r2, w2)
    /\ sim_runway (simulated_metrics r1) <= sim_runway (simulated_metrics r2).
Proof.
  destruct (simulate_scenario local_cfg (sample_payload 2 200000 15) fresh_world)
    as [[r1|e1] w1] eqn:Hrun1; [|vm_compute in Hrun1; discriminate].
  destruct (simulate_scenario local_cfg (sample_payload 2 100000 15) fresh_world)
    as [[r2|e2] w2] eqn:Hrun2; [|vm_compute in Hrun2; discriminate].
  exists r1, r2, w1, w2. split; [reflexivity|]. split; [reflexivity|].
  apply (X7_runway_monotone _ _ _ _ _ _ _ _ _ Hrun1 Hrun2 eq_refl).
  - apply simulate_scenario_inv in Hrun1, Hrun2.
    destruct Hrun1 as (rev1 & opex1 & Hrev1 & Hopex1 & _ & ->).
    destruct Hrun2 as (rev2 & opex2 & Hrev2 & Hopex2 & _ & ->).
    vm_compute in Hrev1, Hopex1, Hrev2, Hopex2.
    injection Hrev1 as <-. injection Hopex1 as <-.
    injection Hrev2 as <-. injection Hopex2 as <-.
    vm_compute. discriminate.
  - apply simulate_scenario_inv in Hrun2.
    destruct Hrun2 as (rev2 & opex2 & Hrev2 & Hopex2 & _ & ->).
    vm_compute in Hrev2, Hopex2.
    injection Hrev2 as <-. injection Hopex2 as <-.
    vm_compute. reflexivity.
Defined.

(* ===================================================================== *)
(** * More on the forecast projector *)
(* ===================================================================== *)

(** X8: [build_forecast_df] fails on a missing key only, and with the
    first key it misses: the revenue, then the cost of goods, then the
    operating expenses, then, for metrics that lose money, the runway.  A
    missing runway is no failure for metrics that do not lose money. *)
Theorem X8_forecast_missing_key (metrics : gmap string Z) :
  (metrics !! "monthly_revenue" = None ->
   build_forecast_df metrics = Raise (KeyError "monthly_revenue"))
  /\ (forall revenue,
        metrics !! "monthly_revenue" = Some revenue ->
        metrics !! "monthly_cogs" = None ->
        build_forecast_df metrics = Raise (KeyError "monthly_cogs"))
  /\ (forall revenue cogs,
        metrics !! "monthly_revenue" = Some revenue ->
        metrics !! "monthly_cogs" = Some cogs ->
        metrics !! "monthly_opex" = None ->
        build_forecast_df metrics = Raise (KeyError "monthly_opex"))
  /\ (forall revenue cogs opex,
        metrics !! "monthly_revenue" = Some revenue ->
        metrics !! "monthly_cogs" = Some cogs ->
        metrics !! "monthly_opex" = Some opex ->
        metrics !! "runway" = None ->
        if revenue - cogs - opex <? 0
        then build_forecast_df metrics = Raise (KeyError "runway")
        else exists df,
               build_forecast_df metrics = Ok df
               /\ Z.of_nat (List.length (rows df)) = 36)
  /\ (forall e,
        build_forecast_df metrics = Raise e ->
        exists key, e = KeyError key /\ metrics !! key = None).
Proof.
  unfold build_forecast_df, getitem. repeat split.
  - intros ->. reflexivity.
  - intros revenue -> ->. reflexivity.
  - intros revenue cogs -> -> ->. reflexivity.
  - intros revenue cogs opex Hrev Hcogs Hopex Hrunway.
    rewrite Hrev, Hcogs, Hopex, Hrunway. cbn [obind].
    destruct (Z.ltb_spec (revenue - cogs - opex) 0) as [Hneg|Hpos].
    + destruct (Z.ltb_spec 0 (- (revenue - cogs - opex))); [reflexivity | lia].
    + cbn [obind]. eexists. split; [reflexivity|]. reflexivity.
  - intros e.
    destruct (metrics !! "monthly_revenue") as [revenue|] eqn:Hrev;
      [|intros [= <-]; eauto].
    destruct (metrics !! "monthly_cogs") as [cogs|] eqn:Hcogs;
      [|intros [= <-]; eauto].
    destruct (metrics !! "monthly_opex") as [opex|] eqn:Hopex;
      [|intros [= <-]; eauto].
    cbn [obind].
    destruct (0 <? _).
    + destruct (metrics !! "runway") as [r|] eqn:Hr;
        [discriminate | intros [= <-]; eauto].
    + discriminate.
Qed.

Lemma lookup_cash_lt sc net h (i : nat) :
  Z.of_nat i < h ->
  (cash_at sc net <$> py_range 0 h) !! i = Some (cash_at sc net (Z.of_nat i)).
Proof.
  intros Hi. rewrite list_lookup_fmap. unfold py_range.
  rewrite lookup_seqZ_lt by lia. reflexivity.
Qed.

Lemma lookup_rows m (i : nat) :
  Z.of_nat i < horizon (Some (runway m)) ->
  exists df,
    project m = Ok df
    /\ rows df !! i
       = Some (Z.of_nat i + 1,
               cash_at (starting_cash m) (baseline_net_profit m) (Z.of_nat i)).
Proof.
  intros Hi. eexists. split; [apply project_run|]. unfold rows.
  cbn [Month Cash_Balance]. apply lookup_zip_Some. split.
  - unfold py_range. rewrite lookup_seqZ_lt by lia. f_equal. lia.
  - apply lookup_cash_lt. exact Hi.
Qed.

(** X9: the forecast of metrics that lose money, with a runway that is
    positive, has one row per month of runway; the balance of month
    [i + 1] is the burn of the [runway - i] months that are left, so that
    every balance is positive: the series ends one month of burn above 0
    and does not show the cash running out. *)
Theorem X9_loss_forecast_stays_positive m :
  monthly_revenue m - monthly_cogs m - monthly_opex m < 0 ->
  0 < runway m ->
  exists df,
    project m = Ok df
    /\ Z.of_nat (List.length (rows df)) = runway m
    /\ (forall i : nat,
          Z.of_nat i < runway m ->
          rows df !! i
          = Some (Z.of_nat i + 1,
                  (monthly_opex m + monthly_cogs m - monthly_revenue m)
                  * (runway m - Z.of_nat i)))
    /\ Forall (fun c => 0 < c) (Cash_Balance df).
Proof.
  intros Hnet Hr.
  assert (horizon (Some (runway m)) = runway m) as Hh.
  { simpl. destruct (Z.leb_spec (runway m) 0); [lia | reflexivity]. }
  assert (starting_cash m
          = runway m * (monthly_opex m + monthly_cogs m - monthly_revenue m))
    as Hcash.
  { unfold starting_cash, baseline_net_profit.
    destruct (Z.ltb_spec (monthly_revenue m - monthly_cogs m - monthly_opex m) 0);
      [|lia].
    destruct (Z.ltb_spec 0 (- (monthly_revenue m - monthly_cogs m - monthly_opex m)));
      [|lia].
    f_equal. lia. }
  eexists. split; [apply project_run|]. rewrite Hh. split; [|split].
  - unfold rows. simpl.
    rewrite length_zip, length_fmap. unfold py_range. rewrite !length_seqZ. lia.
  - intros i Hi.
    destruct (lookup_rows m i) as (df & Hrun & Hrow); [rewrite Hh; exact Hi|].
    rewrite project_run, Hh in Hrun. injection Hrun as <-.
    rewrite Hrow. f_equal. f_equal.
    unfold cash_at, baseline_net_profit. rewrite Hcash. nia.
  - simpl. apply Forall_forall. intros c Hc.
    apply list_elem_of_lookup in Hc as [i Hi].
    pose proof Hi as Hlt.
    rewrite list_lookup_fmap in Hlt. unfold py_range in Hlt.
    destruct (seqZ 0 (runway m - 0) !! i) as [x|] eqn:E; [|discriminate].
    apply lookup_seqZ in E as [_ E].
    apply lookup_cash in Hi. subst c.
    unfold cash_at, baseline_net_profit. rewrite Hcash. nia.
Qed.

Lemma X9_loss_forecast_stays_positive_witness :
  exists df,
    project losing_baseline = Ok df
    /\ rows df !! 4%nat = Some (5, 80)
    /\ Forall (fun c => 0 < c) (Cash_Balance df).
Proof.
  destruct (X9_loss_forecast_stays_positive losing_baseline)
    as (df & Hrun & _ & Hrows & Hpos).
  - simpl. lia.
  - simpl. lia.
  - exists df. split; [exact Hrun|]. split; [|exact Hpos].
    rewrite (Hrows 4%nat); [reflexivity | simpl; lia].
Defined.

(** X10: the forecast of metrics that do not lose money never decreases,
    and starts at twelve months of revenue (at 0 for a negative
    revenue). *)
Theorem X10_profit_forecast_grows m :
  0 <= monthly_revenue m - monthly_cogs m - monthly_opex m ->
  exists df,
    project m = Ok df
    /\ non_decreasing (Cash_Balance df)
    /\ Cash_Balance df !! 0%nat = Some (Z.max 0 (monthly_revenue m * 12)).
Proof.
  intros Hnet. fold (baseline_net_profit m) in Hnet.
  assert (starting_cash m = monthly_revenue m * 12) as Hcash.
  { unfold starting_cash.
    destruct (Z.ltb_spec (baseline_net_profit m) 0); [lia | reflexivity]. }
  eexists. split; [apply project_run|]. simpl. split.
  - intros i j x y Hij Hi Hj.
    apply lookup_cash in Hi. apply lookup_cash in Hj. subst x y.
    unfold cash_at. nia.
  - pose proof (horizon_positive (Some (runway m))) as Hpos.
    rewrite lookup_cash_lt by (simpl in *; lia).
    unfold cash_at. rewrite Hcash. f_equal. simpl. lia.
Qed.

Lemma X10_profit_forecast_grows_witness :
  exists df,
    project initial_baseline = Ok df
    /\ non_decreasing (Cash_Balance df)
    /\ Cash_Balance df !! 0%nat = Some 2640000.
Proof.
  destruct (X10_profit_forecast_grows initial_baseline) as (df & Hrun & Hup & H0).
  - simpl. lia.
  - exists df. split; [exact Hrun|]. split; [exact Hup|]. rewrite H0. reflexivity.
Defined.

(* ===================================================================== *)
(** * The forecast of a simulation *)
(* ===================================================================== *)

(** [build_forecast_df] reads four keys and nothing else. *)
Lemma build_forecast_df_ext (d1 d2 : gmap string Z) :
  d1 !! "monthly_revenue" = d2 !! "monthly_revenue" ->
  d1 !! "monthly_cogs" = d2 !! "monthly_cogs" ->
  d1 !! "monthly_opex" = d2 !! "monthly_opex" ->
  d1 !! "runway" = d2 !! "runway" ->
  build_forecast_df d1 = build_forecast_df d2.
Proof.
  intros Hrev Hcogs Hopex Hr. unfold build_forecast_df, getitem.
  rewrite Hrev, Hcogs, Hopex, Hr. reflexivity.
Qed.

Lemma simulated_dict_lookup m :
  simulated_dict m !! "runway" = Some (sim_runway m)
  /\ simulated_dict m !! "monthly_revenue" = Some (sim_monthly_revenue m)
  /\ simulated_dict m !! "monthly_cogs" = Some (sim_monthly_cogs m)
  /\ simulated_dict m !! "monthly_opex" = Some (sim_monthly_opex m).
Proof. unfold simulated_dict. repeat split; by simplify_map_eq. Qed.

(** The baseline that the dashboard copies has no part in the simulated
    forecast: the four keys that are read are all overwritten. *)
Lemma simulated_forecast_project (baseline : gmap string Z) result :
  simulated_forecast baseline result
  = project (forecast_metrics (simulated_metrics result)).
Proof.
  unfold simulated_forecast, project.
  destruct (simulated_dict_lookup (simulated_metrics result))
    as (Hr & Hrev & Hcogs & Hopex).
  destruct (metrics_dict_lookup (forecast_metrics (simulated_metrics result)))
    as (Hr' & Hrev' & Hcogs' & Hopex').
  apply build_forecast_df_ext;
    rewrite lookup_union; [rewrite Hrev, Hrev' | rewrite Hcogs, Hcogs'
                          | rewrite Hopex, Hopex' | rewrite Hr, Hr'];
    simpl; match goal with
           | |- context [baseline !! ?k] => destruct (baseline !! k)
           end; reflexivity.
Qed.

Lemma runway_times_burn_le base profit :
  profit < 0 -> 0 <= starting_cash base ->
  0 <= new_runway base profit
  /\ new_runway base profit * (- profit) <= starting_cash base.
Proof.
  intros Hp Hc. rewrite new_runway_loss by exact Hp.
  pose proof (Z.div_pos (starting_cash base) (- profit) Hc ltac:(lia)) as Hq.
  rewrite Z.max_r by exact Hq. split; [exact Hq|].
  pose proof (Z.div_mod (starting_cash base) (- profit) ltac:(lia)) as Hdm.
  pose proof (Z.mod_pos_bound (starting_cash base) (- profit) ltac:(lia)) as Hmod.
  nia.
Qed.

(** X11: the forecast that the dashboard draws for a simulation never
    fails, whatever baseline it starts from, and is the forecast of the
    simulated runway, revenue, cost of goods and operating expenses alone.
    It has 48 rows for a scenario that does not lose money and as many
    rows as the simulated runway (one row at least) for one that does; in
    that case no balance is above the starting cash that the simulation
    used, when that is not negative. *)
Theorem X11_simulated_forecast cfg payload w r w' (baseline : gmap string Z) :
  simulate_scenario cfg payload w = (Ok r, w') ->
  let profit := sim_monthly_profit (simulated_metrics r) in
  exists df,
    simulated_forecast baseline r = Ok df
    /\ project (forecast_metrics (simulated_metrics r)) = Ok df
    /\ Z.of_nat (List.length (rows df))
       = (if 0 <=? profit then 48
          else Z.max 1 (sim_runway (simulated_metrics r)))
    /\ (profit < 0 ->
        0 <= starting_cash (baseline_metrics payload) ->
        Forall (fun c => c <= starting_cash (baseline_metrics payload))
          (Cash_Balance df)).
Proof.
  intros Hrun profit. subst profit.
  apply simulate_scenario_inv in Hrun.
  destruct Hrun as (revenue & opex & _ & _ & _ & Hm).
  rewrite simulated_forecast_project, project_run.
  eexists. split; [reflexivity|]. split; [reflexivity|].
  rewrite Hm. unfold rows. cbn [Month Cash_Balance].
  rewrite length_zip, length_fmap. unfold py_range. rewrite !length_seqZ.
  cbn [forecast_metrics metrics_of runway sim_runway sim_monthly_profit
       sim_monthly_revenue sim_monthly_cogs sim_monthly_opex].
  set (base := baseline_metrics payload).
  set (p := revenue - monthly_cogs base - opex).
  pose proof (horizon_positive (Some (new_runway base p))) as Hpos.
  split.
  - destruct (Z.leb_spec 0 p) as [Hp|Hp].
    + rewrite new_runway_profit by exact Hp. reflexivity.
    + cbn [horizon] in *.
      destruct (Z.leb_spec (new_runway base p) 0); lia.
  - intros Hp Hc. apply Forall_forall. intros c Hin.
    apply list_elem_of_lookup in Hin as [i Hi].
    change (seqZ 0 (horizon (Some (new_runway base p)) - 0))
      with (py_range 0 (horizon (Some (new_runway base p)))) in Hi.
    apply lookup_cash in Hi. subst c.
    destruct (runway_times_burn_le base p Hp Hc) as [Hr Hle].
    set (fm := forecast_metrics (metrics_of base revenue opex)).
    assert (baseline_net_profit fm = p) as Hnet by reflexivity.
    assert (starting_cash fm = new_runway base p * - p) as Hcash.
    { unfold starting_cash. rewrite Hnet.
      destruct (Z.ltb_spec p 0); [|lia].
      destruct (Z.ltb_spec 0 (- p)); [reflexivity | lia]. }
    unfold cash_at. rewrite Hnet, Hcash. nia.
Qed.

Lemma X11_simulated_forecast_witness :
  exists r w' df,
    simulate_scenario local_cfg (sample_payload 2 10000 10) fresh_world
    = (Ok r, w')
    /\ simulated_forecast (metrics_dict initial_baseline) r = Ok df
    /\ Z.of_nat (List.length (rows df)) = 48.
Proof.
  destruct (simulate_scenario local_cfg (sample_payload 2 10000 10) fresh_world)
    as [[r|e] w'] eqn:Hrun; [|vm_compute in Hrun; discriminate].
  destruct (X11_simulated_forecast _ _ _ _ _ (metrics_dict initial_baseline) Hrun)
    as (df & Hdf & _ & Hlen & _).
  exists r, w', df. split; [reflexivity|]. split; [exact Hdf|].
  rewrite Hlen.
  apply simulate_scenario_inv in Hrun.
  destruct Hrun as (revenue & opex & Hrev & Hopex & _ & ->).
  vm_compute in Hrev, Hopex. injection Hrev as <-. injection Hopex as <-.
  reflexivity.
Defined.

(* ===================================================================== *)
(** * More on the pricing assistant *)
(* ===================================================================== *)








(* ===================================================================== *)
(** * A session of requests *)
(* ===================================================================== *)

Lemma fmapM_run {A B} (f : A -> B) (m : M A) w :
  fmapM f m w
  = match m w with
    | (Ok a, w') => (Ok (f a), w')
    | (Raise e, w') => (Raise e, w')
    end.
Proof. unfold fmapM, bind, ret. destruct (m w) as [[a|e] w']; reflexivity. Qed.

Lemma quiet_nil cfg : quiet cfg [].
Proof. split; intros _; constructor. Qed.

Lemma quiet_app cfg (evs1 evs2 : list event) :
  quiet cfg evs1 -> quiet cfg evs2 -> quiet cfg (evs1 ++ evs2)%list.
Proof.
  intros [H1 H2] [H3 H4]. split; intros H; apply Forall_app; auto.
Qed.

Lemma quiet_increment cfg key : quiet cfg [Incremented key].
Proof. split; intros _; repeat constructor. Qed.

Lemma quiet_metering cfg evs :
  truthy (FLEXPRICE_API_KEY cfg) = true ->
  Forall (fun ev => is_model_event ev = false) evs ->
  quiet cfg evs.
Proof. intros Hkey Hevs. split; [congruence | intros _; exact Hevs]. Qed.

Lemma quiet_model cfg prompt :
  truthy (GEMINI_API_KEY cfg) = true -> quiet cfg [ModelCall prompt].
Proof. intros Hkey. split; [intros _; repeat constructor | congruence]. Qed.

Lemma counters_present_insert (stats : gmap string Z) key n :
  counters_present stats -> counters_present (<[key := n]> stats).
Proof.
  intros H k. rewrite lookup_insert. case_decide; [eauto | apply H].
Qed.

Lemma counters_present_union (data stats : gmap string Z) :
  counters_present stats -> counters_present (data ∪ stats).
Proof.
  intros H k. rewrite lookup_union. destruct (H k) as [n ->].
  destruct (data !! counter_of k); simpl; eauto.
Qed.

(** What reading the statistics does to the state. *)
Lemma get_usage_stats_step cfg cust w :
  exists stats w' evs,
    get_usage_stats cfg cust w = (Ok stats, w')
    /\ model w' = model w
    /\ trace w' = (trace w ++ evs)%list
    /\ quiet cfg evs
    /\ (counters_present (USAGE_STATS w) -> counters_present (USAGE_STATS w'))
    /\ (truthy (FLEXPRICE_API_KEY cfg) = false -> w' = w).
Proof.
  eexists _, _, _. split; [apply get_usage_stats_run|].
  split; [reflexivity|]. split; [reflexivity|]. split; [|split].
  - destruct (truthy (FLEXPRICE_API_KEY cfg)) eqn:Hkey.
    + apply quiet_metering; [exact Hkey | repeat constructor].
    + apply quiet_nil.
  - intros Hw. simpl. destruct (fetched cfg w); [|exact Hw].
    apply counters_present_union. exact Hw.
  - intros Hkey. unfold fetched. rewrite Hkey. apply updated_same.
Qed.

(** What logging an event of a counted kind does to the state. *)
Lemma log_step cfg k cust w :
  exists out w' evs,
    log_flexprice_event cfg (event_name_of k) cust w = (out, w')
    /\ model w' = model w
    /\ trace w' = (trace w ++ evs)%list
    /\ quiet cfg evs
    /\ (counters_present (USAGE_STATS w) ->
        counters_present (USAGE_STATS w') /\ exists stats, out = Ok stats).
Proof.
  destruct (USAGE_STATS w !! counter_of k) as [n|] eqn:Hn.
  - destruct (log_run cfg k cust w n Hn)
      as (stats & w' & Hrun & Hm & Hst & _ & Htr).
    eexists _, w', _. split; [exact Hrun|]. split; [exact Hm|].
    split; [exact Htr|]. split.
    + change (Incremented (counter_of k)
                :: (if truthy (FLEXPRICE_API_KEY cfg)
                    then [MeterPost (event_name_of k) cust; UsageGet cust]
                    else []))
        with ([Incremented (counter_of k)]
                ++ (if truthy (FLEXPRICE_API_KEY cfg)
                    then [MeterPost (event_name_of k) cust; UsageGet cust]
                    else []))%list.
      apply quiet_app; [apply quiet_increment|].
      destruct (truthy (FLEXPRICE_API_KEY cfg)) eqn:Hkey.
      * apply quiet_metering; [exact Hkey | repeat constructor].
      * apply quiet_nil.
    + intros Hw. split; [|eauto]. rewrite Hst.
      destruct (fetched cfg w).
      * apply counters_present_union, counters_present_insert, Hw.
      * apply counters_present_insert, Hw.
  - exists (Raise (KeyError (counter_of k))), w, [].
    split.
    + assert (increment (counter_of k) w = (Raise (KeyError (counter_of k)), w))
        as Hinc.
      { unfold increment, bind, read_usage_stats, throw. rewrite Hn. reflexivity. }
      unfold log_flexprice_event, bind.
      destruct k; simpl in *; rewrite Hinc; reflexivity.
    + split; [reflexivity|]. split; [rewrite app_nil_r; reflexivity|].
      split; [apply quiet_nil|].
      intros Hw. destruct (Hw k) as [n Hn']. congruence.
Qed.

Lemma step_facts_refl {A} cfg w (out : outcome A) :
  (forall key, out <> Raise (KeyError key)) -> step_facts cfg w out w.
Proof.
  intros Hout. split; [reflexivity|]. split.
  - exists []. split; [rewrite app_nil_r; reflexivity | apply quiet_nil].
  - intros Hw. split; [exact Hw | exact Hout].
Qed.

Lemma conversion_error_not_key e key :
  conversion_error e -> Raise (A:=Z) e <> Raise (KeyError key).
Proof. intros [msg [-> | ->]]; discriminate. Qed.

Lemma simulate_scenario_step cfg payload w :
  step_facts cfg w (fst (simulate_scenario cfg payload w))
    (snd (simulate_scenario cfg payload w)).
Proof.
  unfold simulate_scenario, bind, lift, ret.
  destruct (new_monthly_revenue _ _) as [revenue|e1] eqn:Hrev.
  2:{ apply step_facts_refl. intros key.
      destruct (new_monthly_revenue_raises _ _ _ Hrev) as [msg [-> | ->]];
        discriminate. }
  destruct (new_monthly_opex _ _ _) as [opex|e2] eqn:Hopex.
  2:{ apply step_facts_refl. intros key.
      destruct (new_monthly_opex_raises _ _ _ _ Hopex) as [msg [-> | ->]];
        discriminate. }
  destruct (log_step cfg scenario_simulated default_customer w)
    as (lout & w1 & evs & Hlog & Hm & Htr & Hq & Hc).
  simpl in Hlog. rewrite Hlog.
  destruct lout as [stats|e]; simpl; (split; [exact Hm|]); (split; [eauto|]);
    intros Hw; destruct (Hc Hw) as [Hw1 [stats' Hok]];
    (split; [exact Hw1|]); intros key; discriminate.
Qed.

Lemma calculate_price_step cfg json_loads payload w :
  step_facts cfg w (fst (calculate_price cfg json_loads payload w))
    (snd (calculate_price cfg json_loads payload w)).
Proof.
  destruct (log_step cfg ai_price_calculation default_customer w)
    as (lout & w1 & evs & Hlog & Hm & Htr & Hq & Hc).
  simpl in Hlog. destruct lout as [stats|e].
  - destruct (truthy (GEMINI_API_KEY cfg)) eqn:Hkey.
    + rewrite (calculate_price_with_model _ _ _ _ _ _ Hkey Hlog).
      unfold updated. cbn [fst snd model trace USAGE_STATS].
      split; [exact Hm|]. split.
      * exists (evs ++ [ModelCall (prompt_of payload)])%list.
        rewrite Htr, <- app_assoc. split; [reflexivity|].
        apply quiet_app; [exact Hq | apply quiet_model, Hkey].
      * intros Hw. destruct (Hc Hw) as [Hw1 _]. split; [exact Hw1|].
        intros key. unfold price_outcome.
        destruct (match model w1 (prompt_of payload) with
                  | ReplyText text => price_response json_loads text stats
                  | ReplyError msg => Raise (ModelError msg)
                  end); discriminate.
    + rewrite (calculate_price_without_model _ _ _ _ _ _ Hkey Hlog). simpl.
      split; [exact Hm|]. split; [eauto|].
      intros Hw. destruct (Hc Hw) as [Hw1 _]. split; [exact Hw1|].
      intros key. discriminate.
  - unfold calculate_price, bind. rewrite Hlog. simpl.
    split; [exact Hm|]. split; [eauto|].
    intros Hw. destruct (Hc Hw) as [_ [stats Hok]]. discriminate.
Qed.

(** Every route keeps the facts of a step. *)
Lemma handle_step cfg json_loads req w :
  step_facts cfg w (fst (handle cfg json_loads req w))
    (snd (handle cfg json_loads req w)).
Proof.
  destruct req as [|payload| | |payload]; unfold handle; rewrite fmapM_run.
  - unfold get_initial_data, bind, ret.
    destruct (get_usage_stats_step cfg default_customer w)
      as (stats & w' & evs & Hrun & Hm & Htr & Hq & Hc & _).
    rewrite Hrun. simpl. split; [exact Hm|]. split; [eauto|].
    intros Hw. split; [exact (Hc Hw)|]. intros key. discriminate.
  - pose proof (simulate_scenario_step cfg payload w) as H.
    destruct (simulate_scenario cfg payload w) as [[r|e] w']; simpl in *.
    + destruct H as (Hm & Htr & Hc). split; [exact Hm|]. split; [exact Htr|].
      intros Hw. split; [apply Hc, Hw|]. intros key. discriminate.
    + destruct H as (Hm & Htr & Hc). split; [exact Hm|]. split; [exact Htr|].
      intros Hw. destruct (Hc Hw) as [Hw1 Hne]. split; [exact Hw1|].
      intros key Heq. apply (Hne key). congruence.
  - unfold log_report_export.
    destruct (log_step cfg report_exported default_customer w)
      as (lout & w1 & evs & Hlog & Hm & Htr & Hq & Hc).
    simpl in Hlog. rewrite Hlog.
    destruct lout as [stats|e]; simpl; (split; [exact Hm|]); (split; [eauto|]);
      intros Hw; destruct (Hc Hw) as [Hw1 [stats' Hok]];
      (split; [exact Hw1|]); intros key; discriminate.
  - unfold refresh_data, ret. simpl. apply step_facts_refl.
    intros key. discriminate.
  - pose proof (calculate_price_step cfg json_loads payload w) as H.
    destruct (calculate_price cfg json_loads payload w) as [[j|e] w']; simpl in *.
    + destruct H as (Hm & Htr & Hc). split; [exact Hm|]. split; [exact Htr|].
      intros Hw. split; [apply Hc, Hw|]. intros key. discriminate.
    + destruct H as (Hm & Htr & Hc). split; [exact Hm|]. split; [exact Htr|].
      intros Hw. destruct (Hc Hw) as [Hw1 Hne]. split; [exact Hw1|].
      intros key Heq. apply (Hne key). congruence.
Qed.

Lemma serve_cons cfg json_loads req reqs w :
  serve cfg json_loads (req :: reqs) w
  = (fst (handle cfg json_loads req w)
       :: fst (serve cfg json_loads reqs (snd (handle cfg json_loads req w))),
     snd (serve cfg json_loads reqs (snd (handle cfg json_loads req w)))).
Proof.
  cbn [serve]. destruct (handle cfg json_loads req w) as [out w1].
  cbn [fst snd]. destruct (serve cfg json_loads reqs w1) as [outs w2].
  reflexivity.
Qed.

(** X14: the three counters never leave [USAGE_STATS].  From a state that
    holds them (as the state of a process that starts does), after any
    sequence of requests to the five routes the state still holds them,
    every request has got its answer, and no answer is a [KeyError]: the
    increments of [log_flexprice_event] always find their key. *)
Theorem X14_counters_never_missing cfg json_loads reqs w :
  counters_present (USAGE_STATS w) ->
  counters_present (USAGE_STATS (snd (serve cfg json_loads reqs w)))
  /\ Forall (fun out => forall key, out <> Raise (KeyError key))
       (fst (serve cfg json_loads reqs w))
  /\ List.length (fst (serve cfg json_loads reqs w)) = List.length reqs.
Proof.
  revert w. induction reqs as [|req reqs IH]; intros w Hw.
  - simpl. repeat split; [exact Hw | constructor].
  - rewrite serve_cons. cbn [fst snd List.length].
    destruct (handle_step cfg json_loads req w) as (_ & _ & Hc).
    destruct (Hc Hw) as [Hw1 Hne].
    destruct (IH _ Hw1) as (Hw2 & Hall & Hlen).
    split; [exact Hw2|]. split; [constructor; assumption|].
    rewrite Hlen. reflexivity.
Qed.

Lemma X14_counters_never_missing_witness :
  counters_present
    (USAGE_STATS
       (snd (serve metered_cfg sample_json_loads
               [PostFlexpriceCalculate sample_product; PostLogReportExport;
                GetInitialData]
               metered_world))).
Proof.
  apply (X14_counters_never_missing metered_cfg sample_json_loads
           [PostFlexpriceCalculate sample_product; PostLogReportExport;
            GetInitialData] metered_world).
  exact counters_present_initial.
Defined.

(** X15: no request reaches a service that is not configured.  Whatever
    the requests of a session are, the trace grows by events among which
    there is no call of the metering service when [FLEXPRICE_API_KEY] is
    unset or empty, and no call of the language model when
    [GEMINI_API_KEY] is unset or empty. *)
Theorem X15_only_configured_services cfg json_loads reqs w :
  exists evs,
    trace (snd (serve cfg json_loads reqs w)) = (trace w ++ evs)%list
    /\ (truthy (FLEXPRICE_API_KEY cfg) = false ->
        Forall (fun ev => is_metering_event ev = false) evs)
    /\ (truthy (GEMINI_API_KEY cfg) = false ->
        Forall (fun ev => is_model_event ev = false) evs).
Proof.
  revert w. induction reqs as [|req reqs IH]; intros w.
  - exists []. simpl. rewrite app_nil_r. repeat split; intros _; constructor.
  - rewrite serve_cons. cbn [snd].
    destruct (handle_step cfg json_loads req w) as (_ & (evs1 & Htr1 & Hq1) & _).
    destruct (IH (snd (handle cfg json_loads req w))) as (evs2 & Htr2 & Hq2).
    exists (evs1 ++ evs2)%list. rewrite Htr2, Htr1, <- app_assoc.
    split; [reflexivity|].
    exact (quiet_app cfg evs1 evs2 Hq1 (conj (proj1 Hq2) (proj2 Hq2))).
Qed.

Lemma insert_counter_lookup (stats : gmap string Z) k k' n m :
  stats !! counter_of k' = Some m ->
  <[counter_of k := n]> stats !! counter_of k'
  = Some (if decide (k = k') then n else m).
Proof.
  intros Hm. destruct (decide (k = k')) as [->|Hne].
  - apply lookup_insert_eq.
  - rewrite lookup_insert_ne; [exact Hm|].
    destruct k, k'; try discriminate; congruence.
Qed.

(** Without a metering service, a request moves the counter of the kind
    it counts for, and no other. *)
Lemma handle_local_counts cfg json_loads req w k n :
  truthy (FLEXPRICE_API_KEY cfg) = false ->
  counters_present (USAGE_STATS w) ->
  USAGE_STATS w !! counter_of k = Some n ->
  USAGE_STATS (snd (handle cfg json_loads req w)) !! counter_of k
  = Some (n + (if counts_for k req (fst (handle cfg json_loads req w))
               then 1 else 0)).
Proof.
  intros Hkey Hw Hn.
  destruct req as [|payload| | |payload]; unfold handle; rewrite fmapM_run.
  - unfold get_initial_data, bind, ret.
    destruct (get_usage_stats_step cfg default_customer w)
      as (stats & w' & evs & Hrun & _ & _ & _ & _ & Hsame).
    rewrite Hrun, (Hsame Hkey). simpl. rewrite Hn.
    destruct k; simpl; f_equal; lia.
  - destruct (Hw scenario_simulated) as [ns Hns].
    destruct (simulate_scenario cfg payload w) as [[r|e] w'] eqn:Hrun;
      cbn [fst snd].
    + apply simulate_scenario_inv in Hrun.
      destruct Hrun as (_ & _ & _ & _ & Hlog & _).
      pose proof (log_local cfg scenario_simulated default_customer w ns
                    Hkey Hns) as Hlocal.
      simpl in Hlocal. rewrite Hlocal in Hlog. injection Hlog as _ <-.
      cbn [USAGE_STATS updated].
      rewrite (insert_counter_lookup _ scenario_simulated k _ n Hn).
      destruct k; simpl in *; f_equal; [congruence | lia | lia].
    + destruct (simulate_scenario_raises _ _ _ _ _ _ Hns Hrun) as [-> _].
      rewrite Hn. destruct k; simpl; f_equal; lia.
  - destruct (Hw report_exported) as [nr Hnr].
    unfold log_report_export.
    pose proof (log_local cfg report_exported default_customer w nr Hkey Hnr)
      as Hlocal.
    simpl in Hlocal. rewrite Hlocal. cbn [fst snd USAGE_STATS updated].
    rewrite (insert_counter_lookup _ report_exported k _ n Hn).
    destruct k; simpl in *; f_equal; [lia | congruence | lia].
  - unfold refresh_data, ret. simpl. rewrite Hn.
    destruct k; simpl; f_equal; lia.
  - destruct (Hw ai_price_calculation) as [na Hna].
    pose proof (log_local cfg ai_price_calculation default_customer w na
                  Hkey Hna) as Hlocal.
    simpl in Hlocal.
    assert (USAGE_STATS (snd (calculate_price cfg json_loads payload w))
            = <["ai_price_calculations" := na + 1]> (USAGE_STATS w)) as Hst.
    { destruct (truthy (GEMINI_API_KEY cfg)) eqn:Hg.
      - rewrite (calculate_price_with_model _ _ _ _ _ _ Hg Hlocal). reflexivity.
      - rewrite (calculate_price_without_model _ _ _ _ _ _ Hg Hlocal).
        reflexivity. }
    destruct (calculate_price cfg json_loads payload w) as [[j|e] w'];
      cbn [fst snd] in *; rewrite Hst;
      rewrite (insert_counter_lookup _ ai_price_calculation k _ n Hn);
      destruct k; simpl in *; f_equal; try lia; congruence.
Qed.

(** X16: without a metering service, the counters tell the requests of
    the session.  After any sequence of requests, from a state that holds
    the counters, each counter has grown by the number of requests that
    count for it: the simulations that succeeded, the report exports, and
    the price calculations, those that failed included. *)
Theorem X16_counters_tell_the_session cfg json_loads reqs w k n :
  truthy (FLEXPRICE_API_KEY cfg) = false ->
  counters_present (USAGE_STATS w) ->
  USAGE_STATS w !! counter_of k = Some n ->
  USAGE_STATS (snd (serve cfg json_loads reqs w)) !! counter_of k
  = Some (n + count_for k reqs (fst (serve cfg json_loads reqs w))).
Proof.
  intros Hkey. revert w n. induction reqs as [|req reqs IH]; intros w n Hw Hn.
  - simpl. rewrite Hn. f_equal. lia.
  - rewrite serve_cons. cbn [fst snd count_for].
    destruct (handle_step cfg json_loads req w) as (_ & _ & Hc).
    destruct (Hc Hw) as [Hw1 _].
    rewrite (IH _ _ Hw1
               (handle_local_counts cfg json_loads req w k n Hkey Hw Hn)).
    f_equal. lia.
Qed.

Lemma X16_counters_tell_the_session_witness :
  USAGE_STATS
    (snd (serve model_cfg sample_json_loads
            [PostFlexpriceCalculate sample_product;
             PostSimulate (sample_payload 2 10000 10);
             PostFlexpriceCalculate sample_product; GetInitialData]
            fresh_world)) !! "ai_price_calculations" = Some 2.
Proof.
  etransitivity.
  - apply (X16_counters_tell_the_session model_cfg sample_json_loads
             [PostFlexpriceCalculate sample_product;
              PostSimulate (sample_payload 2 10000 10);
              PostFlexpriceCalculate sample_product; GetInitialData]
             fresh_world ai_price_calculation 0).
    + reflexivity.
    + exact counters_present_initial.
    + vm_compute. reflexivity.
  - vm_compute. reflexivity.
Defined.

(* ===================================================================== *)
(** * Cleaning the reply of the model *)
(* ===================================================================== *)

Lemma append_nil w : (EmptyString ++ w)%string = w.
Proof. reflexivity. Qed.

Lemma append_cons c s w : (String c s ++ w)%string = String c (s ++ w).
Proof. reflexivity. Qed.

Lemma append_assoc s1 s2 s3 :
  ((s1 ++ s2) ++ s3)%string = (s1 ++ (s2 ++ s3))%string.
Proof.
  induction s1 as [|c s1 IH]; [reflexivity|].
  rewrite !append_cons, IH. reflexivity.
Qed.

Lemma append_empty_r s : (s ++ EmptyString)%string = s.
Proof.
  induction s as [|c s IH]; [reflexivity|]. rewrite append_cons, IH. reflexivity.
Qed.

Lemma rev_app_append s1 s2 :
  String.rev_app s1 s2 = (String.rev s1 ++ s2)%string.
Proof.
  unfold String.rev. revert s2.
  induction s1 as [|c s1 IH]; intros s2; cbn [String.rev_app]; [reflexivity|].
  rewrite (IH (String c s2)), (IH (String c EmptyString)).
  rewrite append_assoc. reflexivity.
Qed.

Lemma rev_cons c s :
  String.rev (String c s) = (String.rev s ++ String c EmptyString)%string.
Proof. unfold String.rev at 1. cbn [String.rev_app]. apply rev_app_append. Qed.

Lemma rev_append s1 s2 :
  String.rev (s1 ++ s2)%string = (String.rev s2 ++ String.rev s1)%string.
Proof.
  induction s1 as [|c s1 IH].
  - rewrite append_nil. change (String.rev EmptyString) with EmptyString.
    rewrite append_empty_r. reflexivity.
  - rewrite append_cons, !rev_cons, IH, append_assoc. reflexivity.
Qed.

Lemma rev_involutive s : String.rev (String.rev s) = s.
Proof.
  induction s as [|c s IH]; [reflexivity|].
  rewrite rev_cons, rev_append, IH. reflexivity.
Qed.

(** Stripping on the left leaves a suffix, stripping on the right a
    prefix. *)
Lemma py_lstrip_suffix s : exists w, s = (w ++ py_lstrip s)%string.
Proof.
  induction s as [|c s [w IH]]; cbn [py_lstrip].
  - exists EmptyString. reflexivity.
  - destruct (is_space c).
    + exists (String c w). rewrite append_cons, <- IH. reflexivity.
    + exists EmptyString. reflexivity.
Qed.

Lemma py_rstrip_prefix s : exists w, s = (py_rstrip s ++ w)%string.
Proof.
  unfold py_rstrip. destruct (py_lstrip_suffix (String.rev s)) as [w Hw].
  exists (String.rev w).
  rewrite <- (rev_involutive s) at 1. rewrite Hw at 1.
  apply rev_append.
Qed.

Lemma prefix_append needle s w :
  String.prefix needle s = true -> String.prefix needle (s ++ w) = true.
Proof.
  revert s. induction needle as [|a needle IH]; intros s;
    [intros _; destruct (s ++ w)%string; reflexivity|].
  destruct s as [|c s]; [discriminate|].
  rewrite append_cons. cbn [String.prefix].
  destruct (ascii_dec a c); [apply IH | discriminate].
Qed.

Lemma occurs_append_l needle s w :
  occurs needle s = true -> occurs needle (s ++ w) = true.
Proof.
  induction s as [|c s IH].
  - cbn [occurs]. rewrite orb_false_r. intros H.
    destruct needle; [destruct w; reflexivity | discriminate].
  - rewrite append_cons. cbn [occurs]. intros H.
    apply orb_prop in H as [H|H]; apply orb_true_iff.
    + left. exact (prefix_append needle (String c s) w H).
    + right. exact (IH H).
Qed.

Lemma occurs_append_r needle w s :
  occurs needle s = true -> occurs needle (w ++ s) = true.
Proof.
  intros H. induction w as [|c w IH]; [exact H|].
  rewrite append_cons. cbn [occurs]. apply orb_true_iff. right. exact IH.
Qed.

Lemma occurs_py_strip needle s :
  occurs needle s = false -> occurs needle (py_strip s) = false.
Proof.
  intros H. unfold py_strip.
  destruct (occurs needle (py_rstrip (py_lstrip s))) eqn:E; [|reflexivity].
  destruct (py_rstrip_prefix (py_lstrip s)) as [w1 H1].
  destruct (py_lstrip_suffix s) as [w2 H2].
  apply (occurs_append_l _ _ w1) in E. rewrite <- H1 in E.
  apply (occurs_append_r _ w2) in E. rewrite <- H2 in E. congruence.
Qed.

Lemma prefix_nil s : String.prefix EmptyString s = true.
Proof. destruct s; reflexivity. Qed.

Lemma prefix_cons a needle c s :
  String.prefix (String a needle) (String c s)
  = if ascii_dec a c then String.prefix needle s else false.
Proof. reflexivity. Qed.

(** The equations of the removal of the fences. *)
Lemma remove_fence_fence u :
  py_replace fence "" (String "`" (String "`" (String "`" u)))
  = py_replace fence "" u.
Proof.
  unfold py_replace, fence. cbn [replace_from].
  rewrite !prefix_cons. cbn. rewrite prefix_nil. reflexivity.
Qed.

Lemma remove_fence_other c s :
  String.prefix fence (String c s) = false ->
  py_replace fence "" (String c s) = String c (py_replace fence "" s).
Proof.
  intros H. unfold py_replace. cbn [replace_from]. rewrite H. reflexivity.
Qed.

Lemma fence_cases s :
  s = EmptyString
  \/ (exists u, s = String "`" (String "`" (String "`" u)))
  \/ (exists c s', s = String c s' /\ String.prefix fence s = false).
Proof.
  destruct s as [|c s']; [left; reflexivity|]. right.
  destruct (String.prefix fence (String c s')) eqn:E; [left | right; eauto].
  unfold fence in E. rewrite prefix_cons in E.
  destruct (ascii_dec "`" c) as [<-|]; [|discriminate].
  destruct s' as [|c1 s1]; [discriminate|]. rewrite prefix_cons in E.
  destruct (ascii_dec "`" c1) as [<-|]; [|discriminate].
  destruct s1 as [|c2 s2]; [discriminate|]. rewrite prefix_cons in E.
  destruct (ascii_dec "`" c2) as [<-|]; [|discriminate].
  eauto.
Qed.

(** Induction along the removal of the fences. *)
Lemma fence_ind (P : string -> Prop) :
  P EmptyString ->
  (forall u, P u -> P (String "`" (String "`" (String "`" u)))) ->
  (forall c s, String.prefix fence (String c s) = false -> P s -> P (String c s)) ->
  forall s, P s.
Proof.
  intros Hnil Hfence Hother s.
  assert (forall n s, (String.length s <= n)%nat -> P s) as H.
  { induction n as [|n IH]; intros t Hlen.
    - destruct t; [exact Hnil | simpl in Hlen; lia].
    - destruct (fence_cases t) as [-> | [(u & ->) | (c & t' & -> & Hp)]].
      + exact Hnil.
      + apply Hfence, IH. simpl in Hlen. lia.
      + apply Hother; [exact Hp|]. apply IH. simpl in Hlen. lia. }
  exact (H (String.length s) s (le_n _)).
Qed.

Lemma remove_fence_lead1 s :
  String.prefix "`" (py_replace fence "" s) = true -> String.prefix "`" s = true.
Proof.
  induction s as [|u IH|c s Hp IH] using fence_ind.
  - intros H. exact H.
  - intros _. rewrite prefix_cons. destruct (ascii_dec "`" "`"); [|congruence].
    apply prefix_nil.
  - rewrite (remove_fence_other c s Hp), !prefix_cons.
    destruct (ascii_dec "`" c); [|discriminate].
    intros _. apply prefix_nil.
Qed.

Lemma remove_fence_lead2 s :
  String.prefix "``" (py_replace fence "" s) = true ->
  String.prefix "``" s = true.
Proof.
  induction s as [|u IH|c s Hp IH] using fence_ind.
  - intros H. exact H.
  - intros _. rewrite !prefix_cons. destruct (ascii_dec "`" "`"); [|congruence].
    apply prefix_nil.
  - rewrite (remove_fence_other c s Hp), !prefix_cons.
    destruct (ascii_dec "`" c); [|discriminate].
    intros H. apply remove_fence_lead1 in H. exact H.
Qed.

(** No fence is left once the fences are removed. *)
Lemma remove_fence_free s : occurs fence (py_replace fence "" s) = false.
Proof.
  induction s as [|u IH|c s Hp IH] using fence_ind.
  - reflexivity.
  - rewrite remove_fence_fence. exact IH.
  - rewrite (remove_fence_other c s Hp). cbn [occurs]. rewrite IH, orb_false_r.
    destruct (String.prefix fence (String c (py_replace fence "" s))) eqn:E;
      [|reflexivity].
    unfold fence in E, Hp. rewrite prefix_cons in E, Hp.
    destruct (ascii_dec "`" c); [|discriminate].
    apply remove_fence_lead2 in E. congruence.
Qed.

Lemma first_char_lstrip s c :
  first_char (py_lstrip s) = Some c -> is_space c = false.
Proof.
  induction s as [|a s IH]; cbn [py_lstrip]; [discriminate|].
  destruct (is_space a) eqn:E; [exact IH|].
  cbn [first_char]. intros [= <-]. exact E.
Qed.

Lemma last_char_snoc s c : last_char (s ++ String c EmptyString) = Some c.
Proof.
  induction s as [|a s IH]; [reflexivity|].
  rewrite append_cons. cbn [last_char].
  destruct (s ++ String c EmptyString)%string eqn:E; [|exact IH].
  destruct s; discriminate.
Qed.

Lemma last_char_rev s : last_char (String.rev s) = first_char s.
Proof.
  destruct s as [|c s]; [reflexivity|]. rewrite rev_cons. apply last_char_snoc.
Qed.

(** X17: what [calculate_price] hands to the JSON parser holds no code
    fence (three backquotes in a row) any more, wherever the fences were
    in the reply of the model and however many there were, and neither
    starts nor ends with white space. *)
Theorem X17_cleaned_response_has_no_fence text :
  occurs fence (cleaned_response text) = false
  /\ (forall c, first_char (cleaned_response text) = Some c -> is_space c = false)
  /\ (forall c, last_char (cleaned_response text) = Some c -> is_space c = false).
Proof.
  unfold cleaned_response.
  set (body := py_replace fence "" (py_replace fence_json "" (py_strip text))).
  split; [|split].
  - apply occurs_py_strip. apply remove_fence_free.
  - intros c Hc. unfold py_strip in Hc.
    destruct (py_rstrip_prefix (py_lstrip body)) as [w Hw].
    destruct (py_rstrip (py_lstrip body)) as [|a r]; [discriminate|].
    cbn [first_char] in Hc. injection Hc as ->.
    apply (first_char_lstrip body). rewrite Hw. reflexivity.
  - intros c Hc. unfold py_strip, py_rstrip in Hc.
    rewrite last_char_rev in Hc.
    exact (first_char_lstrip _ _ Hc).
Qed.

(* ===================================================================== *)
(** * The figures of the dashboard *)
(* ===================================================================== *)

(** X18: the changes that the dashboard shows for a simulation add up:
    the change of the profit is the change of the revenue less the change
    of the burn, the cost of goods being carried over as it is.  For
    amounts below [2^53] the change of the burn is the cost of the
    scenario, 6250 a month for each hire and the added marketing, so that
    it is never negative. *)
Theorem X18_dashboard_deltas cfg payload w r w' :
  simulate_scenario cfg payload w = (Ok r, w') ->
  let base := baseline_metrics payload in
  let deltas := dashboard_deltas base (simulated_metrics r) in
  profit_delta deltas
  = (sim_monthly_revenue (simulated_metrics r) - monthly_revenue base)
    - burn_delta deltas
  /\ (0 <= hires payload ->
      0 <= marketing_spend_increase payload ->
      0 <= monthly_opex base ->
      monthly_opex base + 6250 * hires payload
        + marketing_spend_increase payload < 2 ^ 53 ->
      burn_delta deltas
      = 6250 * hires payload + marketing_spend_increase payload
      /\ 0 <= burn_delta deltas).
Proof.
  intros Hrun base deltas. subst deltas.
  apply simulate_scenario_inv in Hrun.
  destruct Hrun as (revenue & opex & _ & Hopex & _ & Hm).
  rewrite Hm. fold base in Hopex |- *.
  unfold dashboard_deltas, metrics_of.
  cbn [profit_delta burn_delta sim_monthly_profit sim_monthly_burn
       sim_monthly_revenue].
  split; [lia|].
  intros Hh Hmk Hbase Hsum.
  rewrite (new_monthly_opex_exact base _ _ Hh Hmk Hbase Hsum) in Hopex.
  injection Hopex as <-. lia.
Qed.

Lemma X18_dashboard_deltas_witness :
  exists r w',
    simulate_scenario local_cfg (sample_payload 2 10000 10) fresh_world
    = (Ok r, w')
    /\ burn_delta (dashboard_deltas initial_baseline (simulated_metrics r))
       = 22500.
Proof.
  destruct (simulate_scenario local_cfg (sample_payload 2 10000 10) fresh_world)
    as [[r|e] w'] eqn:Hrun; [|vm_compute in Hrun; discriminate].
  exists r, w'. split; [reflexivity|].
  destruct (X18_dashboard_deltas _ _ _ _ _ Hrun) as [_ Hburn].
  destruct Hburn as [Hburn _]; [simpl; lia | simpl; lia | simpl; lia
                                | simpl; lia |].
  exact Hburn.
Defined.
